(** * The live-conversation audio session (LiveConversation component)

    A shallow embedding of the streaming audio session of the
    [LiveConversation] React component: microphone capture, the streamed
    playback schedule, the transcript accumulators and the teardown.

    Conventions of the embedding.
    - In the state machine, time is counted in sample frames of the 24 kHz
      output context, as an integer: [AudioContext.currentTime] is a frame
      count divided by the sample rate and [AudioBuffer.duration] is the
      buffer length divided by the same rate, so 500 ms is 12000 frames.
      The component computes on IEEE doubles in seconds; the frame counts
      keep the comparisons, [Math.max] and the fact that a sum is not below
      its first term, but not the value of a sum of sums, which rounds.  The
      properties of the schedule are therefore stated with [≤], [max] and
      one addition at a time, and the arithmetic of the source on doubles is
      modelled in [Doubles].
    - Platform objects (media streams, audio contexts, audio nodes, buffer
      sources, animation-frame requests, live sessions) are handles into
      stores kept in the [Platform] record; a handle is the index of the
      object in its store.
    - React state setters are applied in program order, which is the order in
      which React applies the queued updates.  The one value that closures
      observe late is [currentTurnRef]: it is copied from [currentTurn] by the
      effect that runs at a render, the [Render] event.
    - A handler that throws (or whose promise rejects) keeps the mutations it
      made before the throw; the [Handler] monad returns [None] for it.  The
      throws that are modelled are the rejection of [getUserMedia] and the
      failure of the audio decoding.
    - A handler runs to its end before the next event is handled: the
      [await] on the decoding helper resumes in a microtask, before any other
      callback of the event loop.

    The component modelled is the one the application imports (the named
    export [LiveConversation]).  Its drawing helper is modelled in
    [Waveform], and the earlier revision of the component, kept in
    [components/LiveConversation.tsx], in [Earlier]. *)

From stdpp Require Import gmap strings list.
From Stdlib Require Import ZArith Lia.
From Stdlib Require QArith Lqa Floats.

Module LiveConversation.

(** ** JavaScript coercions used by the component *)

(** Truthiness of a string: only the empty string is falsy. *)
Definition truthy (s : string) : bool := negb (String.eqb s "").

(** [a + b] where [b] may be [undefined]. *)
Definition js_string (o : option string) : string := default "undefined" o.

(** ** Data *)

Record TranscriptionTurn := { user : string; model : string }.

Definition emptyTurn : TranscriptionTurn := {| user := ""; model := "" |}.

Record Transcription := { text : option string }.

(** What [onmessage] reads of a [LiveServerMessage]; [audioData] is the value
    of [serverContent?.modelTurn?.parts[0]?.inlineData?.data]. *)
Record LiveServerMessage := {
  outputTranscription : option Transcription;
  inputTranscription : option Transcription;
  audioData : option string;
  turnComplete : bool;
  interrupted : bool
}.

(** The PCM blob handed to [sendRealtimeInput]. *)
Record Blob := { data : string; mimeType : string }.

Record AudioResources := {
  stream : option nat;
  inputAudioContext : option nat;
  outputAudioContext : option nat;
  outputGainNode : option nat;
  scriptProcessor : option nat;
  sources : gset nat;
  nextStartTime : Z;
  animationFrameId : option nat;
  inputAnalyser : option nat;
  outputAnalyser : option nat
}.

(** The object literal the ref starts with and [stopConversation] resets to. *)
Definition noResources : AudioResources := {|
  stream := None; inputAudioContext := None; outputAudioContext := None;
  outputGainNode := None; scriptProcessor := None; sources := ∅;
  nextStartTime := 0; animationFrameId := None;
  inputAnalyser := None; outputAnalyser := None |}.

(** React state and refs of the component. *)
Record Component := {
  isActive : bool;
  isConnecting : bool;
  transcription : list TranscriptionTurn;
  currentTurn : TranscriptionTurn;
  error : option string;
  currentTurnRef : TranscriptionTurn;
  sessionRef : option nat;
  audioResources : AudioResources
}.

(** ** The platform *)

Inductive NodeKind :=
  AnalyserNode | GainNode | ScriptProcessorNode | MediaStreamSourceNode.

Record AudioNode := { nodeKind : NodeKind; nodeContext : nat }.

Inductive Endpoint :=
| ENode (n : nat)
| ESource (i : nat)
| EDestination (ctx : nat).

Global Instance Endpoint_eq_dec : EqDecision Endpoint.
Proof. solve_decision. Defined.

(** A buffer source that was started: when, for how many frames, and whether
    [stop()] was called on it. *)
Record AudioBufferSourceNode := {
  startTime : Z;
  bufferLength : N;
  stopped : bool
}.

Definition duration (b : AudioBufferSourceNode) : Z := Z.of_N (bufferLength b).

(** A [.then] callback registered on the session promise. *)
Inductive Reaction :=
| SendRealtimeInput (b : Blob)
| CloseSession.

(** What the callbacks built by one call of [startConversation] close over. *)
Record Closure := {
  cl_stream : nat;
  cl_inputAudioContext : nat;
  cl_inputAnalyser : nat;
  cl_isActive : bool
}.

(** The promise returned by [ai.live.connect]: pending, with the callbacks
    registered on it so far, or fulfilled with the session. *)
Inductive PromiseState :=
| Pending (reactions : list Reaction)
| Fulfilled.

(** The promise and the session behind it: the blobs passed to
    [sendRealtimeInput] and the number of calls of [close]. *)
Record Connection := {
  promise : PromiseState;
  sent : list Blob;
  closeCalls : nat;
  closure : Closure
}.

Record Platform := {
  streams : list bool;            (* are the stream's tracks live? *)
  contexts : list bool;           (* is the context still open? *)
  nodes : list AudioNode;
  edges : list (Endpoint * Endpoint);
  bufferSources : list AudioBufferSourceNode;
  frameRequests : list bool;      (* is the requested frame still pending? *)
  connections : list Connection;
  console : list string;
  suspended : list bool           (* calls of startConversation awaiting
                                     getUserMedia, with the isActive each
                                     closed over *)
}.

Record State := { ui : Component; platform : Platform }.

Definition initialComponent : Component := {|
  isActive := false; isConnecting := false; transcription := [];
  currentTurn := emptyTurn; error := None; currentTurnRef := emptyTurn;
  sessionRef := None; audioResources := noResources |}.

Definition emptyPlatform : Platform := {|
  streams := []; contexts := []; nodes := []; edges := [];
  bufferSources := []; frameRequests := []; connections := [];
  console := []; suspended := [] |}.

Definition initialState : State :=
  {| ui := initialComponent; platform := emptyPlatform |}.

(** ** Field updates *)

Definition with_ui (f : Component → Component) (s : State) : State :=
  {| ui := f (ui s); platform := platform s |}.

Definition with_platform (f : Platform → Platform) (s : State) : State :=
  {| ui := ui s; platform := f (platform s) |}.

Definition setIsActive (b : bool) : State → State := with_ui (λ c,
  {| isActive := b; isConnecting := isConnecting c;
     transcription := transcription c; currentTurn := currentTurn c;
     error := error c; currentTurnRef := currentTurnRef c;
     sessionRef := sessionRef c; audioResources := audioResources c |}).

Definition setIsConnecting (b : bool) : State → State := with_ui (λ c,
  {| isActive := isActive c; isConnecting := b;
     transcription := transcription c; currentTurn := currentTurn c;
     error := error c; currentTurnRef := currentTurnRef c;
     sessionRef := sessionRef c; audioResources := audioResources c |}).

Definition setTranscription (f : list TranscriptionTurn → list TranscriptionTurn)
  : State → State := with_ui (λ c,
  {| isActive := isActive c; isConnecting := isConnecting c;
     transcription := f (transcription c); currentTurn := currentTurn c;
     error := error c; currentTurnRef := currentTurnRef c;
     sessionRef := sessionRef c; audioResources := audioResources c |}).

Definition setCurrentTurn (f : TranscriptionTurn → TranscriptionTurn)
  : State → State := with_ui (λ c,
  {| isActive := isActive c; isConnecting := isConnecting c;
     transcription := transcription c; currentTurn := f (currentTurn c);
     error := error c; currentTurnRef := currentTurnRef c;
     sessionRef := sessionRef c; audioResources := audioResources c |}).

Definition setError (e : option string) : State → State := with_ui (λ c,
  {| isActive := isActive c; isConnecting := isConnecting c;
     transcription := transcription c; currentTurn := currentTurn c;
     error := e; currentTurnRef := currentTurnRef c;
     sessionRef := sessionRef c; audioResources := audioResources c |}).

Definition set_currentTurnRef (t : TranscriptionTurn) : State → State :=
  with_ui (λ c,
  {| isActive := isActive c; isConnecting := isConnecting c;
     transcription := transcription c; currentTurn := currentTurn c;
     error := error c; currentTurnRef := t;
     sessionRef := sessionRef c; audioResources := audioResources c |}).

Definition set_sessionRef (r : option nat) : State → State := with_ui (λ c,
  {| isActive := isActive c; isConnecting := isConnecting c;
     transcription := transcription c; currentTurn := currentTurn c;
     error := error c; currentTurnRef := currentTurnRef c;
     sessionRef := r; audioResources := audioResources c |}).

Definition with_resources (f : AudioResources → AudioResources)
  : State → State := with_ui (λ c,
  {| isActive := isActive c; isConnecting := isConnecting c;
     transcription := transcription c; currentTurn := currentTurn c;
     error := error c; currentTurnRef := currentTurnRef c;
     sessionRef := sessionRef c; audioResources := f (audioResources c) |}).

Definition resources (s : State) : AudioResources := audioResources (ui s).

Definition set_stream (v : option nat) : State → State := with_resources (λ r,
  {| stream := v; inputAudioContext := inputAudioContext r;
     outputAudioContext := outputAudioContext r;
     outputGainNode := outputGainNode r; scriptProcessor := scriptProcessor r;
     sources := sources r; nextStartTime := nextStartTime r;
     animationFrameId := animationFrameId r;
     inputAnalyser := inputAnalyser r; outputAnalyser := outputAnalyser r |}).

Definition set_inputAudioContext (v : option nat) : State → State :=
  with_resources (λ r,
  {| stream := stream r; inputAudioContext := v;
     outputAudioContext := outputAudioContext r;
     outputGainNode := outputGainNode r; scriptProcessor := scriptProcessor r;
     sources := sources r; nextStartTime := nextStartTime r;
     animationFrameId := animationFrameId r;
     inputAnalyser := inputAnalyser r; outputAnalyser := outputAnalyser r |}).

Definition set_outputAudioContext (v : option nat) : State → State :=
  with_resources (λ r,
  {| stream := stream r; inputAudioContext := inputAudioContext r;
     outputAudioContext := v;
     outputGainNode := outputGainNode r; scriptProcessor := scriptProcessor r;
     sources := sources r; nextStartTime := nextStartTime r;
     animationFrameId := animationFrameId r;
     inputAnalyser := inputAnalyser r; outputAnalyser := outputAnalyser r |}).

Definition set_outputGainNode (v : option nat) : State → State :=
  with_resources (λ r,
  {| stream := stream r; inputAudioContext := inputAudioContext r;
     outputAudioContext := outputAudioContext r;
     outputGainNode := v; scriptProcessor := scriptProcessor r;
     sources := sources r; nextStartTime := nextStartTime r;
     animationFrameId := animationFrameId r;
     inputAnalyser := inputAnalyser r; outputAnalyser := outputAnalyser r |}).

Definition set_scriptProcessor (v : option nat) : State → State :=
  with_resources (λ r,
  {| stream := stream r; inputAudioContext := inputAudioContext r;
     outputAudioContext := outputAudioContext r;
     outputGainNode := outputGainNode r; scriptProcessor := v;
     sources := sources r; nextStartTime := nextStartTime r;
     animationFrameId := animationFrameId r;
     inputAnalyser := inputAnalyser r; outputAnalyser := outputAnalyser r |}).

Definition with_sources (f : gset nat → gset nat) : State → State :=
  with_resources (λ r,
  {| stream := stream r; inputAudioContext := inputAudioContext r;
     outputAudioContext := outputAudioContext r;
     outputGainNode := outputGainNode r; scriptProcessor := scriptProcessor r;
     sources := f (sources r); nextStartTime := nextStartTime r;
     animationFrameId := animationFrameId r;
     inputAnalyser := inputAnalyser r; outputAnalyser := outputAnalyser r |}).

Definition set_nextStartTime (t : Z) : State → State := with_resources (λ r,
  {| stream := stream r; inputAudioContext := inputAudioContext r;
     outputAudioContext := outputAudioContext r;
     outputGainNode := outputGainNode r; scriptProcessor := scriptProcessor r;
     sources := sources r; nextStartTime := t;
     animationFrameId := animationFrameId r;
     inputAnalyser := inputAnalyser r; outputAnalyser := outputAnalyser r |}).

Definition set_animationFrameId (v : option nat) : State → State :=
  with_resources (λ r,
  {| stream := stream r; inputAudioContext := inputAudioContext r;
     outputAudioContext := outputAudioContext r;
     outputGainNode := outputGainNode r; scriptProcessor := scriptProcessor r;
     sources := sources r; nextStartTime := nextStartTime r;
     animationFrameId := v;
     inputAnalyser := inputAnalyser r; outputAnalyser := outputAnalyser r |}).

Definition set_inputAnalyser (v : option nat) : State → State :=
  with_resources (λ r,
  {| stream := stream r; inputAudioContext := inputAudioContext r;
     outputAudioContext := outputAudioContext r;
     outputGainNode := outputGainNode r; scriptProcessor := scriptProcessor r;
     sources := sources r; nextStartTime := nextStartTime r;
     animationFrameId := animationFrameId r;
     inputAnalyser := v; outputAnalyser := outputAnalyser r |}).

Definition set_outputAnalyser (v : option nat) : State → State :=
  with_resources (λ r,
  {| stream := stream r; inputAudioContext := inputAudioContext r;
     outputAudioContext := outputAudioContext r;
     outputGainNode := outputGainNode r; scriptProcessor := scriptProcessor r;
     sources := sources r; nextStartTime := nextStartTime r;
     animationFrameId := animationFrameId r;
     inputAnalyser := inputAnalyser r; outputAnalyser := v |}).

Definition with_streams (f : list bool → list bool) : State → State :=
  with_platform (λ p,
  {| streams := f (streams p); contexts := contexts p; nodes := nodes p;
     edges := edges p; bufferSources := bufferSources p;
     frameRequests := frameRequests p; connections := connections p;
     console := console p; suspended := suspended p |}).

Definition with_contexts (f : list bool → list bool) : State → State :=
  with_platform (λ p,
  {| streams := streams p; contexts := f (contexts p); nodes := nodes p;
     edges := edges p; bufferSources := bufferSources p;
     frameRequests := frameRequests p; connections := connections p;
     console := console p; suspended := suspended p |}).

Definition with_nodes (f : list AudioNode → list AudioNode) : State → State :=
  with_platform (λ p,
  {| streams := streams p; contexts := contexts p; nodes := f (nodes p);
     edges := edges p; bufferSources := bufferSources p;
     frameRequests := frameRequests p; connections := connections p;
     console := console p; suspended := suspended p |}).

Definition with_edges (f : list (Endpoint * Endpoint) → list (Endpoint * Endpoint))
  : State → State := with_platform (λ p,
  {| streams := streams p; contexts := contexts p; nodes := nodes p;
     edges := f (edges p); bufferSources := bufferSources p;
     frameRequests := frameRequests p; connections := connections p;
     console := console p; suspended := suspended p |}).

Definition with_bufferSources
  (f : list AudioBufferSourceNode → list AudioBufferSourceNode)
  : State → State := with_platform (λ p,
  {| streams := streams p; contexts := contexts p; nodes := nodes p;
     edges := edges p; bufferSources := f (bufferSources p);
     frameRequests := frameRequests p; connections := connections p;
     console := console p; suspended := suspended p |}).

Definition with_frameRequests (f : list bool → list bool) : State → State :=
  with_platform (λ p,
  {| streams := streams p; contexts := contexts p; nodes := nodes p;
     edges := edges p; bufferSources := bufferSources p;
     frameRequests := f (frameRequests p); connections := connections p;
     console := console p; suspended := suspended p |}).

Definition with_connections (f : list Connection → list Connection)
  : State → State := with_platform (λ p,
  {| streams := streams p; contexts := contexts p; nodes := nodes p;
     edges := edges p; bufferSources := bufferSources p;
     frameRequests := frameRequests p; connections := f (connections p);
     console := console p; suspended := suspended p |}).

Definition console_write (line : string) : State → State :=
  with_platform (λ p,
  {| streams := streams p; contexts := contexts p; nodes := nodes p;
     edges := edges p; bufferSources := bufferSources p;
     frameRequests := frameRequests p; connections := connections p;
     console := console p ++ [line]; suspended := suspended p |}).

Definition with_suspended (f : list bool → list bool) : State → State :=
  with_platform (λ p,
  {| streams := streams p; contexts := contexts p; nodes := nodes p;
     edges := edges p; bufferSources := bufferSources p;
     frameRequests := frameRequests p; connections := connections p;
     console := console p; suspended := f (suspended p) |}).

(** ** Platform operations *)

(** [stream.getTracks().forEach(track => track.stop())] *)
Definition stop_tracks (m : nat) : State → State := with_streams (<[m := false]>).

(** [new AudioContext(...)] appends an open context; [close()] closes it. *)
Definition close_context (c : nat) : State → State :=
  with_contexts (<[c := false]>).

Definition create_node (k : NodeKind) (ctx : nat) : State → State :=
  with_nodes (λ l, l ++ [{| nodeKind := k; nodeContext := ctx |}]).

Definition connect (a b : Endpoint) : State → State :=
  with_edges (λ l, l ++ [(a, b)]).

(** [node.disconnect()] removes every outgoing connection of the node. *)
Definition disconnect (n : nat) : State → State :=
  with_edges (filter (λ e, e.1 ≠ ENode n)).

(** [source.start(t)] on a fresh buffer source whose buffer has [len] frames. *)
Definition start_source (t : Z) (len : N) : State → State :=
  with_bufferSources (λ l,
    l ++ [{| startTime := t; bufferLength := len; stopped := false |}]).

(** [source.stop()] *)
Definition mark_stopped (b : AudioBufferSourceNode) : AudioBufferSourceNode :=
  {| startTime := startTime b; bufferLength := bufferLength b;
     stopped := true |}.

Definition stop_source (i : nat) : State → State :=
  with_bufferSources (alter mark_stopped i).

(** Animation-frame ids are positive: the request stored at index [n] has
    id [S n]. *)
Definition requestAnimationFrame (s : State) : State :=
  with_frameRequests (λ l, l ++ [true]) s.

Definition cancelAnimationFrame (id : nat) : State → State :=
  match id with
  | O => λ s, s
  | S n => with_frameRequests (<[n := false]>)
  end.

Definition run_reaction (r : Reaction) (k : Connection) : Connection :=
  match r with
  | SendRealtimeInput b =>
      {| promise := promise k; sent := sent k ++ [b];
         closeCalls := closeCalls k; closure := closure k |}
  | CloseSession =>
      {| promise := promise k; sent := sent k;
         closeCalls := S (closeCalls k); closure := closure k |}
  end.

(** [promise.then(cb)]: on a fulfilled promise the callback runs (as a
    microtask, touching the session only); on a pending one it is queued
    behind the callbacks registered before it. *)
Definition promise_then (r : Reaction) (k : Connection) : Connection :=
  match promise k with
  | Fulfilled => run_reaction r k
  | Pending l =>
      {| promise := Pending (l ++ [r]); sent := sent k;
         closeCalls := closeCalls k; closure := closure k |}
  end.

(** The session promise resolves: the queued callbacks run in registration
    order. *)
Definition settle (k : Connection) : Connection :=
  match promise k with
  | Fulfilled => k
  | Pending l =>
      foldl (λ k r, run_reaction r k)
        {| promise := Fulfilled; sent := sent k;
           closeCalls := closeCalls k; closure := closure k |} l
  end.

Definition session_then (c : nat) (r : Reaction) : State → State :=
  with_connections (alter (promise_then r) c).

(** ** stopConversation *)

Definition optionally (f : nat → State → State) (o : option nat)
  : State → State :=
  match o with Some h => f h | None => λ s, s end.

Definition stopConversation (s : State) : State :=
  let s := setIsActive false s in
  let s := setError None s in
  let s := match sessionRef (ui s) with
           | Some c => set_sessionRef None (session_then c CloseSession s)
           | None => s
           end in
  let s := optionally stop_tracks (stream (resources s)) s in
  let s := optionally disconnect (scriptProcessor (resources s)) s in
  let s := optionally disconnect (inputAnalyser (resources s)) s in
  let s := optionally disconnect (outputAnalyser (resources s)) s in
  let s := optionally disconnect (outputGainNode (resources s)) s in
  let s := optionally close_context (inputAudioContext (resources s)) s in
  let s := optionally close_context (outputAudioContext (resources s)) s in
  let s := match animationFrameId (resources s) with
           | Some (S n) =>
               set_animationFrameId None (cancelAnimationFrame (S n) s)
           | _ => s
           end in
  with_resources (λ _, noResources) s.

(** ** Handlers that may throw *)

Definition Handler (A : Type) : Type := State → State * option A.

Global Instance Handler_ret : MRet Handler := λ A a s, (s, Some a).

Global Instance Handler_bind : MBind Handler := λ A B f m s,
  match m s with
  | (s', Some a) => f a s'
  | (s', None) => (s', None)
  end.

Definition throw {A} : Handler A := λ s, (s, None).

Definition try_catch {A} (body handler : Handler A) : Handler A := λ s,
  match body s with
  | (s', None) => handler s'
  | r => r
  end.

Definition act (f : State → State) : Handler unit := λ s, (f s, Some ()).

Definition gets {A} (f : State → A) : Handler A := λ s, (s, Some (f s)).

Definition when (b : bool) (h : Handler unit) : Handler unit :=
  if b then h else mret ().

Definition exec {A} (h : Handler A) (s : State) : State := (h s).1.

(** Did the handler run to its end? *)
Definition completed {A} (h : Handler A) (s : State) : bool :=
  bool_decide (is_Some (h s).2).

Section Session.

(** The helpers of [utils/audio] are outside the component.
    [decodeAudioData d] stands for
    [await decodeAudioData(decode(d), ctx, 24000, 1)]: the length in frames of
    the decoded buffer, or [None] when the call throws.  [createBlob] turns
    the samples of a capture buffer into the blob that is sent. *)
Variable decodeAudioData : string → option N.
Variable Float32Array : Type.
Variable createBlob : Float32Array → Blob.

Definition await_decode (d : string) : Handler N :=
  match decodeAudioData d with
  | Some len => mret len
  | None => throw
  end.

(** ** startConversation *)

(** Up to [await navigator.mediaDevices.getUserMedia(...)]. *)
Definition startConversation_begin (closedOverIsActive : bool) (s : State)
  : State :=
  let s := setIsConnecting true s in
  let s := setError None s in
  with_suspended (λ l, l ++ [closedOverIsActive]) s.

Definition await_getUserMedia (granted : bool) : Handler nat :=
  if granted then
    m ← gets (λ s, length (streams (platform s)));
    act (with_streams (λ l, l ++ [true]));;
    mret m
  else throw.

Definition new_AudioContext : Handler nat :=
  c ← gets (λ s, length (contexts (platform s)));
  act (with_contexts (λ l, l ++ [true]));;
  mret c.

Definition new_node (k : NodeKind) (ctx : nat) : Handler nat :=
  n ← gets (λ s, length (nodes (platform s)));
  act (create_node k ctx);;
  mret n.

(** [ai.live.connect({..., callbacks})]: a pending promise. *)
Definition live_connect (k : Closure) : Handler nat :=
  c ← gets (λ s, length (connections (platform s)));
  act (with_connections (λ l, l ++
    [{| promise := Pending []; sent := []; closeCalls := 0;
        closure := k |}]));;
  mret c.

(** The rest of [startConversation], once [getUserMedia] has settled. *)
Definition startConversation_resume (closedOverIsActive granted : bool)
  : Handler unit :=
  try_catch
    (stream ← await_getUserMedia granted;
     act (set_stream (Some stream));;
     inputAudioContext ← new_AudioContext;
     act (set_inputAudioContext (Some inputAudioContext));;
     outputAudioContext ← new_AudioContext;
     act (set_outputAudioContext (Some outputAudioContext));;
     inputAnalyser ← new_node AnalyserNode inputAudioContext;
     act (set_inputAnalyser (Some inputAnalyser));;
     outputAnalyser ← new_node AnalyserNode outputAudioContext;
     act (set_outputAnalyser (Some outputAnalyser));;
     outputGainNode ← new_node GainNode outputAudioContext;
     act (connect (ENode outputGainNode) (ENode outputAnalyser));;
     act (connect (ENode outputAnalyser) (EDestination outputAudioContext));;
     act (set_outputGainNode (Some outputGainNode));;
     act (set_nextStartTime 0);;
     act (with_sources (λ _, ∅));;
     c ← live_connect {| cl_stream := stream;
                         cl_inputAudioContext := inputAudioContext;
                         cl_inputAnalyser := inputAnalyser;
                         cl_isActive := closedOverIsActive |};
     act (set_sessionRef (Some c)))
    (act (console_write "Failed to start live conversation:");;
     act (setIsConnecting false);;
     act (setError (Some
       "Failed to connect to the live agent. Check microphone permissions."));;
     act stopConversation).

(** ** The callbacks passed to [ai.live.connect] *)

Definition onaudioprocess (inputData : Float32Array) (s : State) : State :=
  let pcmBlob := createBlob inputData in
  match sessionRef (ui s) with
  | Some c => session_then c (SendRealtimeInput pcmBlob) s
  | None => s
  end.

Definition onopen (k : Closure) : Handler unit :=
  act (console_write "Session opened");;
  act (setIsConnecting false);;
  act (setIsActive true);;
  id ← gets (λ s, S (length (frameRequests (platform s))));
  act requestAnimationFrame;;
  act (set_animationFrameId (Some id));;
  source ← new_node MediaStreamSourceNode (cl_inputAudioContext k);
  scriptProcessor ← new_node ScriptProcessorNode (cl_inputAudioContext k);
  act (set_scriptProcessor (Some scriptProcessor));;
  act (connect (ENode source) (ENode (cl_inputAnalyser k)));;
  act (connect (ENode (cl_inputAnalyser k)) (ENode scriptProcessor));;
  act (connect (ENode scriptProcessor)
         (EDestination (cl_inputAudioContext k))).

Definition append_model (t : Transcription) (prev : TranscriptionTurn)
  : TranscriptionTurn :=
  {| user := user prev; model := model prev +:+ js_string (text t) |}.

Definition append_user (t : Transcription) (prev : TranscriptionTurn)
  : TranscriptionTurn :=
  {| user := user prev +:+ js_string (text t); model := model prev |}.

(** The [for ... of sources.values()] loop of the interruption branch.  The
    loop deletes only the element it is visiting, so it visits the elements
    the set had when the loop began. *)
Definition stop_all_sources (s : State) : State :=
  foldl (λ s i, with_sources (λ x, x ∖ {[i]}) (stop_source i s)) s
    (elements (sources (resources s))).

(** The scheduling of one chunk, with times in frames; the same arithmetic
    on the doubles of the source is [Doubles.schedule]. *)
Definition schedule_audio (d : string) (g : nat) (currentTime : N)
  : Handler unit :=
  t0 ← gets (λ s, nextStartTime (resources s));
  act (set_nextStartTime (Z.max t0 (Z.of_N currentTime)));;
  len ← await_decode d;
  source ← gets (λ s, length (bufferSources (platform s)));
  act (connect (ESource source) (ENode g));;
  t ← gets (λ s, nextStartTime (resources s));
  act (start_source t len);;
  act (set_nextStartTime (t + Z.of_N len));;
  act (with_sources (λ x, x ∪ {[source]})).

(** The four parts of [onmessage], in the order of the source. *)

Definition handle_transcriptions (message : LiveServerMessage)
  : Handler unit :=
  match outputTranscription message with
  | Some t => act (setCurrentTurn (append_model t))
  | None => mret ()
  end;;
  match inputTranscription message with
  | Some t => act (setCurrentTurn (append_user t))
  | None => mret ()
  end.

Definition handle_audio (currentTime : N) (message : LiveServerMessage)
  : Handler unit :=
  r ← gets resources;
  match audioData message, outputAudioContext r, outputGainNode r with
  | Some d, Some _, Some g => when (truthy d) (schedule_audio d g currentTime)
  | _, _, _ => mret ()
  end.

Definition handle_turnComplete (message : LiveServerMessage) : Handler unit :=
  when (turnComplete message)
    (t ← gets (λ s, currentTurnRef (ui s));
     when (truthy (user t) || truthy (model t))
       (act (setTranscription (λ prev,
          prev ++ [{| user := user t; model := model t |}])));;
     act (setCurrentTurn (λ _, emptyTurn))).

Definition handle_interrupted (message : LiveServerMessage) : Handler unit :=
  when (interrupted message)
    (act stop_all_sources;;
     act (set_nextStartTime 0)).

Definition onmessage (currentTime : N) (message : LiveServerMessage)
  : Handler unit :=
  handle_transcriptions message;;
  handle_audio currentTime message;;
  handle_turnComplete message;;
  handle_interrupted message.

Definition onerror : State → State := λ s,
  let s := console_write "Live session error:" s in
  let s := setError (Some
    "Live session encountered an error. Please try again.") s in
  stopConversation s.

Definition onclose (k : Closure) (s : State) : State :=
  let s := console_write "Session closed:" s in
  if cl_isActive k then stopConversation s else s.

(** ** The component's own event handlers *)

Definition toggleConversation (s : State) : State :=
  if isActive (ui s) || isConnecting (ui s) then stopConversation s
  else startConversation_begin (isActive (ui s)) s.

(** The effect [currentTurnRef.current = currentTurn]. *)
Definition sync_currentTurnRef (s : State) : State :=
  set_currentTurnRef (currentTurn (ui s)) s.

(** [animateVisualization]: the drawing is not modelled, the re-request is. *)
Definition animateVisualization (s : State) : State :=
  let id := S (length (frameRequests (platform s))) in
  set_animationFrameId (Some id) (requestAnimationFrame s).

(** ** Events *)

Inductive Event :=
| Click
| GetUserMediaSettled (granted : bool)
| SessionResolved (c : nat)
| OnOpen (c : nat)
| OnMessage (c : nat) (currentTime : N) (message : LiveServerMessage)
| OnError (c : nat)
| OnClose (c : nat)
| AudioProcess (p : nat) (inputData : Float32Array)
| Ended (source : nat)
| AnimationFrame (id : nat)
| Render.

(** The platform fires [onaudioprocess] on a script processor whose context
    is open and which is connected to the context's destination. *)
Definition capturing (p : nat) (s : State) : bool :=
  match nodes (platform s) !! p with
  | Some {| nodeKind := ScriptProcessorNode; nodeContext := ctx |} =>
      bool_decide (contexts (platform s) !! ctx = Some true)
      && bool_decide ((ENode p, EDestination ctx) ∈ edges (platform s))
  | _ => false
  end.

Definition with_closure (c : nat) (f : Closure → State → State) (s : State)
  : State :=
  match connections (platform s) !! c with
  | Some k => f (closure k) s
  | None => s
  end.

Definition step (e : Event) (s : State) : State :=
  match e with
  | Click =>
      (* the button is disabled while connecting *)
      if isConnecting (ui s) then s else toggleConversation s
  | GetUserMediaSettled granted =>
      match suspended (platform s) with
      | a :: rest =>
          exec (startConversation_resume a granted)
            (with_suspended (λ _, rest) s)
      | [] => s
      end
  | SessionResolved c => with_connections (alter settle c) s
  | OnOpen c => with_closure c (λ k, exec (onopen k)) s
  | OnMessage c currentTime message =>
      with_closure c (λ _, exec (onmessage currentTime message)) s
  | OnError c => with_closure c (λ _, onerror) s
  | OnClose c => with_closure c onclose s
  | AudioProcess p inputData =>
      if capturing p s then onaudioprocess inputData s else s
  | Ended i =>
      match bufferSources (platform s) !! i with
      | Some _ => with_sources (λ x, x ∖ {[i]}) s
      | None => s
      end
  | AnimationFrame id =>
      match id with
      | S n =>
          if bool_decide (frameRequests (platform s) !! n = Some true)
          then animateVisualization (with_frameRequests (<[n := false]>) s)
          else s
      | O => s
      end
  | Render => sync_currentTurnRef s
  end.

Definition run (trace : list Event) (s : State) : State :=
  foldl (λ s e, step e s) s trace.

End Session.

Arguments Click {Float32Array}.
Arguments GetUserMediaSettled {Float32Array} granted.
Arguments SessionResolved {Float32Array} c.
Arguments OnOpen {Float32Array} c.
Arguments OnMessage {Float32Array} c currentTime message.
Arguments OnError {Float32Array} c.
Arguments OnClose {Float32Array} c.
Arguments AudioProcess {Float32Array} p inputData.
Arguments Ended {Float32Array} source.
Arguments AnimationFrame {Float32Array} id.
Arguments Render {Float32Array}.
Arguments onaudioprocess {Float32Array} createBlob inputData s.
Arguments step decodeAudioData {Float32Array} createBlob e s.
Arguments run decodeAudioData {Float32Array} createBlob trace s.

(** ** Closed forms used in the proofs *)

Definition ui_after_stop (u : Component) : Component :=
  {| isActive := false; isConnecting := isConnecting u;
     transcription := transcription u; currentTurn := currentTurn u;
     error := None; currentTurnRef := currentTurnRef u;
     sessionRef := None; audioResources := noResources |}.

Definition opt_apply {A} (f : nat → A → A) (o : option nat) (x : A) : A :=
  match o with Some h => f h x | None => x end.

Definition cut (n : nat)
  : list (Endpoint * Endpoint) → list (Endpoint * Endpoint) :=
  filter (λ e, e.1 ≠ ENode n).

Definition platform_after_stop (u : Component) (p : Platform) : Platform :=
  let r := audioResources u in
  {| streams := opt_apply (λ m, <[m := false]>) (stream r) (streams p);
     contexts :=
       opt_apply (λ c, <[c := false]>) (outputAudioContext r)
         (opt_apply (λ c, <[c := false]>) (inputAudioContext r) (contexts p));
     nodes := nodes p;
     edges :=
       opt_apply cut (outputGainNode r) (opt_apply cut (outputAnalyser r)
         (opt_apply cut (inputAnalyser r)
            (opt_apply cut (scriptProcessor r) (edges p))));
     bufferSources := bufferSources p;
     frameRequests :=
       match animationFrameId r with
       | Some (S n) => <[n := false]> (frameRequests p)
       | _ => frameRequests p
       end;
     connections :=
       opt_apply (alter (promise_then CloseSession)) (sessionRef u)
         (connections p);
     console := console p;
     suspended := suspended p |}.

Definition apply_deltas (m : LiveServerMessage) (s : State) : State :=
  let s := match outputTranscription m with
           | Some t => setCurrentTurn (append_model t) s
           | None => s
           end in
  match inputTranscription m with
  | Some t => setCurrentTurn (append_user t) s
  | None => s
  end.

Definition complete_turn (m : LiveServerMessage) (s : State) : State :=
  if turnComplete m then
    let t := currentTurnRef (ui s) in
    setCurrentTurn (λ _, emptyTurn)
      (if truthy (user t) || truthy (model t)
       then setTranscription
              (λ prev, prev ++ [{| user := user t; model := model t |}]) s
       else s)
  else s.

Definition interrupt (m : LiveServerMessage) (s : State) : State :=
  if interrupted m then set_nextStartTime 0 (stop_all_sources s) else s.

(** The chunk of a message that the audio branch will try to play, with the
    gain node it is routed to. *)
Definition playable (m : LiveServerMessage) (s : State)
  : option (string * nat) :=
  match audioData m, outputAudioContext (resources s),
        outputGainNode (resources s) with
  | Some d, Some _, Some g => if truthy d then Some (d, g) else None
  | _, _, _ => None
  end.

Definition raise_to_clock (currentTime : N) (s : State) : State :=
  set_nextStartTime (Z.max (nextStartTime (resources s)) (Z.of_N currentTime)) s.

Definition enqueue (len : N) (g : nat) (s : State) : State :=
  let i := length (bufferSources (platform s)) in
  let t := nextStartTime (resources s) in
  with_sources (λ x, x ∪ {[i]})
    (set_nextStartTime (t + Z.of_N len)
       (start_source t len (connect (ESource i) (ENode g) s))).

Definition stop_many (l : list nat)
  : list AudioBufferSourceNode → list AudioBufferSourceNode :=
  λ b, foldl (λ b i, alter mark_stopped i b) b l.

Definition delete_many (l : list nat) : gset nat → gset nat :=
  λ x, foldl (λ x i, x ∖ {[i]}) x l.

(** The record that the turn-completion branch appends, if any. *)
Definition finished_turn (m : LiveServerMessage) (s : State)
  : list TranscriptionTurn :=
  let t := currentTurnRef (ui s) in
  if turnComplete m && (truthy (user t) || truthy (model t))
  then [{| user := user t; model := model t |}] else [].

(** ** Vocabulary of the properties *)


(** The sources started since the store had [n] entries. *)
Definition started_since (n : nat) (s : State) : list AudioBufferSourceNode :=
  drop n (bufferSources (platform s)).

Definition held_nodes (r : AudioResources) : list nat :=
  omap id [scriptProcessor r; inputAnalyser r; outputAnalyser r;
           outputGainNode r].

(** Everything [r] holds is released in [p]: the microphone tracks are not
    live, the two contexts are not open and the held nodes have no outgoing
    connection. *)
Definition released (r : AudioResources) (p : Platform) : Prop :=
  (∀ m, stream r = Some m → streams p !! m ≠ Some true) ∧
  (∀ c, inputAudioContext r = Some c ∨ outputAudioContext r = Some c →
        contexts p !! c ≠ Some true) ∧
  (∀ n, n ∈ held_nodes r → ∀ e, e ∈ edges p → e.1 ≠ ENode n).

Definition queued_input (r : Reaction) : option Blob :=
  match r with SendRealtimeInput b => Some b | CloseSession => None end.

(** The blobs handed to the session, now or when its promise resolves. *)
Definition transmitted (k : Connection) : list Blob :=
  sent k ++ match promise k with
            | Pending l => omap queued_input l
            | Fulfilled => []
            end.

Definition transmitted_on (c : nat) (s : State) : list Blob :=
  from_option transmitted [] (connections (platform s) !! c).


Definition input_text (m : LiveServerMessage) : string :=
  from_option (λ t, js_string (text t)) "" (inputTranscription m).

Definition output_text (m : LiveServerMessage) : string :=
  from_option (λ t, js_string (text t)) "" (outputTranscription m).

Definition concat_strings (l : list string) : string :=
  foldr String.append "" l.

(** A message that only carries transcript deltas. *)
Definition is_delta (m : LiveServerMessage) : bool :=
  negb (turnComplete m) && bool_decide (audioData m = None).

(** A message that only signals the end of the turn. *)
Definition only_turn_complete (m : LiveServerMessage) : bool :=
  turnComplete m && bool_decide (audioData m = None)
  && bool_decide (inputTranscription m = None)
  && bool_decide (outputTranscription m = None).

Section Traces.

Context {Float32Array : Type}.

Definition completes_turn (e : Event Float32Array) : bool :=
  match e with OnMessage _ _ m => turnComplete m | _ => false end.






(** Each message is handled and the component renders before the next. *)
Definition deliver (c : nat) (l : list (N * LiveServerMessage))
  : list (Event Float32Array) :=
  l ≫= λ '(currentTime, m), [OnMessage c currentTime m; Render].

End Traces.

(** ** Sample inputs *)

Definition sample_decode (d : string) : option N :=
  if String.eqb d "chunk500" then Some 12000%N
  else if String.eqb d "chunk300" then Some 7200%N
  else None.

Definition sample_blob (samples : string) : Blob :=
  {| data := samples; mimeType := "audio/pcm;rate=16000" |}.

Definition audio_message (d : string) : LiveServerMessage :=
  {| outputTranscription := None; inputTranscription := None;
     audioData := Some d; turnComplete := false; interrupted := false |}.

Definition input_delta (t : string) : LiveServerMessage :=
  {| outputTranscription := None;
     inputTranscription := Some {| text := Some t |};
     audioData := None; turnComplete := false; interrupted := false |}.

Definition output_delta (t : string) : LiveServerMessage :=
  {| outputTranscription := Some {| text := Some t |};
     inputTranscription := None;
     audioData := None; turnComplete := false; interrupted := false |}.

Definition turn_complete_message : LiveServerMessage :=
  {| outputTranscription := None; inputTranscription := None;
     audioData := None; turnComplete := true; interrupted := false |}.

Definition interrupted_message : LiveServerMessage :=
  {| outputTranscription := None; inputTranscription := None;
     audioData := None; turnComplete := false; interrupted := true |}.

Definition corrupt_message : LiveServerMessage :=
  {| outputTranscription := None; inputTranscription := None;
     audioData := Some "corrupt"; turnComplete := true; interrupted := false |}.

Definition sample_run : list (Event string) → State → State :=
  run sample_decode sample_blob.

(** A session that was started, opened and resolved. *)
Definition open_session : State :=
  sample_run [Click; GetUserMediaSettled true; OnOpen 0; SessionResolved 0]
    initialState.

(** The deltas of one turn, and the session after that turn. *)
Definition hello_deltas : list (N * LiveServerMessage) :=
  [(10, input_delta "hel"); (20, input_delta "lo");
   (30, output_delta "hi there")]%N.

Definition logged_session : State :=
  sample_run (deliver 0 hello_deltas ++ [OnMessage 0 40 turn_complete_message])
    open_session.

(** The same session with one and with two chunks scheduled, the chunks
    arriving at frames 100 and 200, and then interrupted at frame 150 of the
    clock. *)
Definition first_chunk_session : State :=
  exec (onmessage sample_decode 100 (audio_message "chunk500")) open_session.

Definition playing_session : State :=
  exec (onmessage sample_decode 200 (audio_message "chunk300"))
    first_chunk_session.

Definition interrupted_session : State :=
  exec (onmessage sample_decode 150 interrupted_message) playing_session.

(** ** What the component displays *)

(** One message bubble of the conversation pane: who speaks, the text, and
    whether it belongs to the turn in progress. *)
Inductive Bubble :=
| UserBubble (text : string) (pending : bool)
| ModelBubble (text : string) (pending : bool).

(** [{turn.user && ...} {turn.model && ...}] *)
Definition turn_bubbles (t : TranscriptionTurn) : list Bubble :=
  (if truthy (user t) then [UserBubble (user t) false] else [])
  ++ (if truthy (model t) then [ModelBubble (model t) false] else []).

Definition conversation_view (c : Component) : list Bubble :=
  (transcription c ≫= turn_bubbles)
  ++ (if truthy (user (currentTurn c))
      then [UserBubble (user (currentTurn c)) true] else [])
  ++ (if truthy (model (currentTurn c)) || isConnecting c
      then [ModelBubble (if isConnecting c then "Connecting..."
                         else model (currentTurn c)) true]
      else []).

(** [{error && <p>...</p>}] *)
Definition error_view (c : Component) : option string :=
  match error c with
  | Some e => if truthy e then Some e else None
  | None => None
  end.

(** ** The earlier revision of the component

    The file [components/LiveConversation.tsx] holds an earlier revision: no
    analysers, no animation loop, no error state and no interruption branch.
    Its teardown, its message handler and its button handler are modelled on
    the same state; the fields that revision does not have stay as they
    are.  The message handler reads the output context for its clock only,
    which is given with the message. *)

Module Earlier.

(** The first part of the model turn: [inlineData] may be absent (a text
    part), and [data] may be absent in it. *)
Record Part := { inlineData : option (option string) }.

Record Message := { base : LiveServerMessage; firstPart : option Part }.

(** [message.serverContent?.modelTurn?.parts[0]?.inlineData.data]: there is
    no [?.] after [inlineData], so a first part without it throws. *)
Definition read_audioData (m : Message) : Handler (option string) :=
  match firstPart m with
  | None => mret None
  | Some p =>
      match inlineData p with
      | Some d => mret d
      | None => throw
      end
  end.

Definition stopConversation (s : State) : State :=
  let s := setIsActive false s in
  let s := match sessionRef (ui s) with
           | Some c => set_sessionRef None (session_then c CloseSession s)
           | None => s
           end in
  let s := optionally stop_tracks (stream (resources s)) s in
  let s := optionally disconnect (outputGainNode (resources s)) s in
  let s := optionally close_context (inputAudioContext (resources s)) s in
  let s := optionally close_context (outputAudioContext (resources s)) s in
  let s := optionally disconnect (scriptProcessor (resources s)) s in
  with_resources (λ _, noResources) s.

(** Up to its first [await]; the rest of [startConversation] runs when
    [getUserMedia] settles. *)
Definition startConversation_begin (s : State) : State :=
  let s := setIsConnecting true s in
  with_suspended (λ l, l ++ [false]) s.

Section Session.

Variable decodeAudioData : string → option N.

Definition handle_transcriptions (message : LiveServerMessage)
  : Handler unit :=
  match inputTranscription message with
  | Some t => act (setCurrentTurn (append_user t))
  | None => mret ()
  end;;
  match outputTranscription message with
  | Some t => act (setCurrentTurn (append_model t))
  | None => mret ()
  end.

(** [setTranscription(prev => [...prev, currentTurnRef.current])]: no guard. *)
Definition handle_turnComplete (message : LiveServerMessage) : Handler unit :=
  when (turnComplete message)
    (t ← gets (λ s, currentTurnRef (ui s));
     act (setTranscription (λ prev, prev ++ [t]));;
     act (setCurrentTurn (λ _, emptyTurn))).

Definition handle_audio (currentTime : N) (message : Message)
  : Handler unit :=
  audioData ← read_audioData message;
  r ← gets resources;
  match audioData, outputGainNode r with
  | Some d, Some g =>
      when (truthy d) (schedule_audio decodeAudioData d g currentTime)
  | _, _ => mret ()
  end.

Definition onmessage (currentTime : N) (message : Message)
  : Handler unit :=
  handle_transcriptions (base message);;
  handle_turnComplete (base message);;
  handle_audio currentTime message.

Definition onerror (s : State) : State :=
  stopConversation (console_write "Session error:" s).

Definition onclose (s : State) : State :=
  stopConversation (console_write "Session closed" s).

Definition handleToggleConversation (s : State) : State :=
  if isActive (ui s) || isConnecting (ui s) then stopConversation s
  else
    let s := setTranscription (λ _, []) s in
    let s := setCurrentTurn (λ _, emptyTurn) s in
    startConversation_begin s.

(** The messages of a session, handled one after the other. *)
Definition receive (l : list (N * Message)) (s : State) : State :=
  foldl (λ s m, exec (onmessage m.1 m.2) s) s l.

End Session.

(** Closed forms used in the proofs. *)

Definition ui_after_stop (u : Component) : Component :=
  {| isActive := false; isConnecting := isConnecting u;
     transcription := transcription u; currentTurn := currentTurn u;
     error := error u; currentTurnRef := currentTurnRef u;
     sessionRef := None; audioResources := noResources |}.

Definition platform_after_stop (u : Component) (p : Platform) : Platform :=
  let r := audioResources u in
  {| streams := opt_apply (λ m, <[m := false]>) (stream r) (streams p);
     contexts :=
       opt_apply (λ c, <[c := false]>) (outputAudioContext r)
         (opt_apply (λ c, <[c := false]>) (inputAudioContext r) (contexts p));
     nodes := nodes p;
     edges :=
       opt_apply cut (scriptProcessor r)
         (opt_apply cut (outputGainNode r) (edges p));
     bufferSources := bufferSources p;
     frameRequests := frameRequests p;
     connections :=
       opt_apply (alter (promise_then CloseSession)) (sessionRef u)
         (connections p);
     console := console p;
     suspended := suspended p |}.

Definition apply_deltas (m : LiveServerMessage) (s : State) : State :=
  let s := match inputTranscription m with
           | Some t => setCurrentTurn (append_user t) s
           | None => s
           end in
  match outputTranscription m with
  | Some t => setCurrentTurn (append_model t) s
  | None => s
  end.

Definition complete_turn (m : LiveServerMessage) (s : State) : State :=
  if turnComplete m
  then setCurrentTurn (λ _, emptyTurn)
         (setTranscription (λ prev, prev ++ [currentTurnRef (ui s)]) s)
  else s.

(** The first part of the message has no [inlineData]. *)
Definition malformed (m : Message) : bool :=
  match firstPart m with
  | Some {| inlineData := None |} => true
  | _ => false
  end.

Definition playable (m : Message) (s : State) : option (string * nat) :=
  match firstPart m, outputGainNode (resources s) with
  | Some {| inlineData := Some (Some d) |}, Some g =>
      if truthy d then Some (d, g) else None
  | _, _ => None
  end.

(** What the microphone, the contexts and the two nodes of this revision
    look like once released. *)
Definition released (r : AudioResources) (p : Platform) : Prop :=
  (∀ m, stream r = Some m → streams p !! m ≠ Some true) ∧
  (∀ c, inputAudioContext r = Some c ∨ outputAudioContext r = Some c →
        contexts p !! c ≠ Some true) ∧
  (∀ n, scriptProcessor r = Some n ∨ outputGainNode r = Some n →
        ∀ e, e ∈ edges p → e.1 ≠ ENode n).

End Earlier.

(** ** Vocabulary of the further properties *)

(** The calls of [startConversation] that are suspended, and the callbacks of
    every connection, have closed over [isActive = false]. *)
Definition closures_inactive (s : State) : Prop :=
  Forall (λ a, a = false) (suspended (platform s))
  ∧ Forall (λ k, cl_isActive (closure k) = false) (connections (platform s)).

Definition nonempty_turn (t : TranscriptionTurn) : Prop :=
  truthy (user t) || truthy (model t) = true.

(** Every source of the active set was started and has not been stopped. *)
Definition sources_playing (s : State) : Prop :=
  ∀ i, i ∈ sources (resources s) →
       ∃ b, bufferSources (platform s) !! i = Some b ∧ stopped b = false.

Definition is_close (r : Reaction) : bool :=
  match r with CloseSession => true | SendRealtimeInput _ => false end.

(** The calls of [session.close()], made or queued on the promise. *)
Definition close_requests (k : Connection) : nat :=
  closeCalls k + match promise k with
                 | Pending l => length (filter (λ r, is_close r = true) l)
                 | Fulfilled => 0
                 end.

(** A session is closed at most once, the session in [sessionRef] has not
    been asked to close, and [sessionRef] names a connection. *)
Definition close_discipline (s : State) : Prop :=
  (∀ c k, connections (platform s) !! c = Some k →
          close_requests k ≤ 1
          ∧ (sessionRef (ui s) = Some c → close_requests k = 0))
  ∧ (∀ c, sessionRef (ui s) = Some c → c < length (connections (platform s))).

Section MoreTraces.

Context {Float32Array : Type}.

(** The events that can end the connecting phase. *)
Definition ends_connecting (e : Event Float32Array) : bool :=
  match e with
  | OnOpen _ | GetUserMediaSettled false => true
  | _ => false
  end.

End MoreTraces.

(** The schedule cursor is at or after the end of every source of the active
    set. *)
Definition sources_before_cursor (s : State) : Prop :=
  ∀ i b, i ∈ sources (resources s) →
         bufferSources (platform s) !! i = Some b →
         (startTime b + duration b ≤ nextStartTime (resources s))%Z.

(** ** drawWaveform

    The module-level helper that draws an analyser's time-domain data on a
    canvas.  It is modelled by the calls it makes on the 2D context, in
    order.  The numbers are rationals: canvas sizes are integers and every
    divisor is a power of two (128, 2, and 1024 bins), so for canvases below
    2^40 pixels the double-precision operations of the source are exact and
    the rationals are the values the source computes. *)

Module Waveform.

Import QArith_base.
Local Close Scope Q_scope.

Record HTMLCanvasElement := {
  width : N;
  height : N;
  (** whether [getContext('2d')] returns a context *)
  context2d : bool
}.

(** An analyser, by the time-domain block it holds: one byte per sample. *)
Record Analyser := { timeDomainData : nat → Byte.byte }.

Inductive CanvasCall :=
| clearRect (x y w h : Q)
| set_lineWidth (w : Q)
| set_strokeStyle (color : string)
| beginPath
| moveTo (x y : Q)
| lineTo (x y : Q)
| stroke.

Definition number (n : N) : Q := inject_Z (Z.of_N n).

Definition fftSize : nat := 2048.

Definition frequencyBinCount : nat := fftSize / 2.

(** [getByteTimeDomainData] fills an array of [n] bytes, [n] at most the
    size of the block, with the first [n] samples. *)
Definition getByteTimeDomainData (a : Analyser) (n : nat) : list Byte.byte :=
  timeDomainData a <$> seq 0 n.

(** The loop over the samples; [i] and [x] are the loop variables. *)
Fixpoint plot (height sliceWidth : Q) (dataArray : list Byte.byte)
    (i : nat) (x : Q) : list CanvasCall :=
  match dataArray with
  | [] => []
  | d :: rest =>
      let v := (number (Byte.to_N d) / 128)%Q in
      let y := (v * height / 2)%Q in
      (match i with O => moveTo x y | S _ => lineTo x y end)
      :: plot height sliceWidth rest (S i) (x + sliceWidth)%Q
  end.

Definition drawWaveform (canvas : option HTMLCanvasElement)
    (analyser : option Analyser) (color : string) : list CanvasCall :=
  match canvas, analyser with
  | Some canvas, Some analyser =>
      if context2d canvas then
        let width := number (width canvas) in
        let height := number (height canvas) in
        let bufferLength := frequencyBinCount in
        let dataArray := getByteTimeDomainData analyser bufferLength in
        let sliceWidth :=
          (width * 1 / inject_Z (Z.of_nat bufferLength))%Q in
        [clearRect 0 0 width height; set_lineWidth 2;
         set_strokeStyle color; beginPath]
        ++ plot height sliceWidth dataArray 0 0
        ++ [lineTo width (height / 2)%Q; stroke]
      else []
  | _, _ => []
  end.

(** The points of the path, in drawing order. *)
Definition points (calls : list CanvasCall) : list (Q * Q) :=
  omap (λ c, match c with
             | moveTo x y | lineTo x y => Some (x, y)
             | _ => None
             end) calls.

(** The calls that begin a sub-path. *)
Definition moves (calls : list CanvasCall) : list (Q * Q) :=
  omap (λ c, match c with moveTo x y => Some (x, y) | _ => None end) calls.

Definition inside (canvas : HTMLCanvasElement) (p : Q * Q) : Prop :=
  (0 <= p.1 ∧ p.1 <= number (width canvas)
   ∧ 0 <= p.2 ∧ p.2 <= number (height canvas))%Q.

End Waveform.

(** ** What the animation loop draws

    The drawing part of [animateVisualization]: the calls made on the input
    and on the output canvas.  [isActive] is the value the callback closed
    over: the callback handed to [requestAnimationFrame] by [onopen], and by
    itself afterwards, is the one of the render in which the button was
    clicked, as for [onclose].  [analyserData] gives the block that an
    analyser node holds. *)
Definition visualization_calls (isActive : bool)
    (canvasRefInput canvasRefOutput : option Waveform.HTMLCanvasElement)
    (analyserData : nat → Waveform.Analyser) (r : AudioResources)
  : list Waveform.CanvasCall * list Waveform.CanvasCall :=
  if isActive then
    (match inputAnalyser r, canvasRefInput with
     | Some a, Some canvas =>
         Waveform.drawWaveform (Some canvas) (Some (analyserData a)) "#00F0FF"
     | _, _ => []
     end,
     match outputAnalyser r, canvasRefOutput with
     | Some a, Some canvas =>
         Waveform.drawWaveform (Some canvas) (Some (analyserData a)) "#FFFF00"
     | _, _ => []
     end)
  else ([], []).

(** The calls of one frame of the loop that the session [c] started. *)
Definition frame_calls (c : nat)
    (canvasRefInput canvasRefOutput : option Waveform.HTMLCanvasElement)
    (analyserData : nat → Waveform.Analyser) (s : State)
  : list Waveform.CanvasCall * list Waveform.CanvasCall :=
  match connections (platform s) !! c with
  | Some k =>
      visualization_calls (cl_isActive (closure k)) canvasRefInput
        canvasRefOutput analyserData (resources s)
  | None => ([], [])
  end.

(** ** Further samples *)

Definition opening : list (Event string) :=
  [Click; GetUserMediaSettled true; OnOpen 0; SessionResolved 0].

(** The two canvases of the component are 200 by 50. *)
Definition sample_canvas : Waveform.HTMLCanvasElement :=
  {| Waveform.width := 200; Waveform.height := 50;
     Waveform.context2d := true |}.

Definition silence : Waveform.Analyser :=
  {| Waveform.timeDomainData := λ _, Byte.x80 |}.

Definition text_part_message : Earlier.Message :=
  {| Earlier.base := turn_complete_message;
     Earlier.firstPart := Some {| Earlier.inlineData := None |} |}.

Definition bare_turn_complete : Earlier.Message :=
  {| Earlier.base := turn_complete_message; Earlier.firstPart := None |}.

(** ** The schedule on doubles

    The arithmetic of the audio branch of [onmessage] as the source computes
    it, on IEEE 754 binary64 numbers in seconds:
    [nextStartTime = Math.max(nextStartTime, currentTime)], the source is
    started at [nextStartTime], and
    [nextStartTime = nextStartTime + audioBuffer.duration]. *)

Module Doubles.

Import PrimFloat.








End Doubles.

(** * Properties *)

(** ** stopConversation in closed form *)

Lemma optionally_stop_tracks o s :
  optionally stop_tracks o s
  = with_streams (opt_apply (λ m, <[m := false]>) o) s.
Proof. destruct o, s as [u []]; reflexivity. Qed.

Lemma optionally_disconnect o s :
  optionally disconnect o s = with_edges (opt_apply cut o) s.
Proof. destruct o, s as [u []]; reflexivity. Qed.

Lemma optionally_close_context o s :
  optionally close_context o s
  = with_contexts (opt_apply (λ c, <[c := false]>) o) s.
Proof. destruct o, s as [u []]; reflexivity. Qed.

Lemma stopConversation_unfold s :
  stopConversation s =
  {| ui := ui_after_stop (ui s);
     platform := platform_after_stop (ui s) (platform s) |}.
Proof.
  destruct s as [[a c tr ct er cr sr [st ic oc og sp so nx af ia oa]] []].
  unfold stopConversation, ui_after_stop, platform_after_stop.
  cbv zeta.
  rewrite !optionally_stop_tracks, !optionally_disconnect,
    !optionally_close_context.
  destruct sr; destruct af as [[|?]|]; reflexivity.
Qed.

Lemma stopConversation_twice s :
  stopConversation (stopConversation s) = stopConversation s.
Proof.
  rewrite (stopConversation_unfold (stopConversation s)).
  rewrite (stopConversation_unfold s). cbn.
  destruct (platform_after_stop (ui s) (platform s)); reflexivity.
Qed.

Lemma lookup_close (l : list bool) (h : nat) : <[h := false]> l !! h ≠ Some true.
Proof.
  destruct (decide (h < length l)) as [Hlt|Hge].
  - rewrite list_lookup_insert_eq by done. discriminate.
  - rewrite list_insert_ge by lia. rewrite lookup_ge_None_2 by lia. discriminate.
Qed.

Lemma opt_close_keeps (o : option nat) (l : list bool) (c : nat) :
  l !! c ≠ Some true → opt_apply (λ c, <[c := false]>) o l !! c ≠ Some true.
Proof.
  destruct o as [h|]; cbn; [|done]. intros Hc.
  destruct (decide (h = c)) as [->|Hne]; [apply lookup_close|].
  by rewrite list_lookup_insert_ne.
Qed.

Lemma cut_spec (n : nat) (l : list (Endpoint * Endpoint)) e :
  e ∈ cut n l ↔ e.1 ≠ ENode n ∧ e ∈ l.
Proof. unfold cut. apply (list_elem_of_filter (λ e, e.1 ≠ ENode n)). Qed.

Lemma opt_cut_subseteq (o : option nat) (l : list (Endpoint * Endpoint)) e :
  e ∈ opt_apply cut o l → e ∈ l.
Proof. destruct o; cbn; [|done]. rewrite cut_spec. tauto. Qed.

Lemma opt_cut_some (n : nat) (l : list (Endpoint * Endpoint)) e :
  e ∈ opt_apply cut (Some n) l → e.1 ≠ ENode n.
Proof. cbn. rewrite cut_spec. tauto. Qed.

Lemma stopConversation_releases s :
  released (resources s) (platform (stopConversation s)).
Proof.
  rewrite stopConversation_unfold. unfold released, resources.
  destruct (audioResources (ui s)) as [st ic oc og sp so nx af ia oa] eqn:Hr.
  split; [|split].
  - intros m Hm. cbn in *. rewrite Hr. cbn. rewrite Hm. apply lookup_close.
  - intros c Hc. cbn in *. rewrite Hr. cbn.
    destruct Hc as [-> | ->]; cbn.
    + apply opt_close_keeps, lookup_close.
    + apply lookup_close.
  - intros n Hn e He. unfold held_nodes in Hn.
    apply list_elem_of_omap in Hn as (o & Ho & Hx). cbn in Hx. subst o.
    cbn in He, Ho. rewrite Hr in He. cbn in He.
    repeat (apply elem_of_cons in Ho as [<- | Ho]);
      [| | | |by apply elem_of_nil in Ho].
    + do 3 apply opt_cut_subseteq in He. by apply opt_cut_some in He.
    + do 2 apply opt_cut_subseteq in He. by apply opt_cut_some in He.
    + apply opt_cut_subseteq in He. by apply opt_cut_some in He.
    + by apply opt_cut_some in He.
Qed.

(** ** Math.max on doubles *)

Section DoublesProperties.

Import PrimFloat SpecFloat FloatOps FloatAxioms.





End DoublesProperties.

Section Properties.

Context (decodeAudioData : string → option N).
Context {Float32Array : Type} (createBlob : Float32Array → Blob).

Local Abbreviation step := (step decodeAudioData createBlob).
Local Abbreviation run := (run decodeAudioData createBlob).
Local Abbreviation onmessage := (onmessage decodeAudioData).

(** ** The handlers in closed form *)

Lemma handle_transcriptions_unfold m s :
  handle_transcriptions m s = (apply_deltas m s, Some ()).
Proof.
  unfold handle_transcriptions, apply_deltas.
  destruct (outputTranscription m), (inputTranscription m); reflexivity.
Qed.

Lemma handle_turnComplete_unfold m s :
  handle_turnComplete m s = (complete_turn m s, Some ()).
Proof.
  unfold handle_turnComplete, complete_turn.
  destruct (turnComplete m); [|reflexivity].
  cbv [when mbind Handler_bind gets act mret Handler_ret].
  destruct (truthy (user (currentTurnRef (ui s)))
            || truthy (model (currentTurnRef (ui s)))); reflexivity.
Qed.

Lemma handle_interrupted_unfold m s :
  handle_interrupted m s = (interrupt m s, Some ()).
Proof.
  unfold handle_interrupted, interrupt.
  destruct (interrupted m); reflexivity.
Qed.

Lemma handle_audio_unfold now m s :
  handle_audio decodeAudioData now m s =
  match playable m s with
  | None => (s, Some ())
  | Some (d, g) =>
      match decodeAudioData d with
      | Some len => (enqueue len g (raise_to_clock now s), Some ())
      | None => (raise_to_clock now s, None)
      end
  end.
Proof.
  unfold handle_audio, playable. cbv [mbind Handler_bind gets].
  destruct (audioData m) as [d|]; [|reflexivity].
  destruct (outputAudioContext (resources s)); [|reflexivity].
  destruct (outputGainNode (resources s)) as [g|]; [|reflexivity].
  destruct (truthy d); [|reflexivity].
  cbv [when schedule_audio await_decode mbind Handler_bind gets act].
  destruct (decodeAudioData d); reflexivity.
Qed.

Lemma onmessage_unfold now m s :
  onmessage now m s =
  match handle_audio decodeAudioData now m (apply_deltas m s) with
  | (s', Some _) => (interrupt m (complete_turn m s'), Some ())
  | (s', None) => (s', None)
  end.
Proof.
  unfold LiveConversation.onmessage.
  change ((handle_transcriptions m;; handle_audio decodeAudioData now m;;
           handle_turnComplete m;; handle_interrupted m) s)
    with (match handle_transcriptions m s with
          | (s1, Some _) =>
              match handle_audio decodeAudioData now m s1 with
              | (s2, Some _) =>
                  match handle_turnComplete m s2 with
                  | (s3, Some _) => handle_interrupted m s3
                  | (s3, None) => (s3, None)
                  end
              | (s2, None) => (s2, None)
              end
          | (s1, None) => (s1, None)
          end).
  rewrite handle_transcriptions_unfold.
  destruct (handle_audio decodeAudioData now m (apply_deltas m s)) as [s2 [[]|]];
    [|reflexivity].
  rewrite handle_turnComplete_unfold, handle_interrupted_unfold. reflexivity.
Qed.


(** ** Effects on the interface state *)

Lemma stop_loop_unfold l s :
  foldl (λ s i, with_sources (λ x, x ∖ {[i]}) (stop_source i s)) s l
  = with_sources (delete_many l) (with_bufferSources (stop_many l) s).
Proof.
  revert s. induction l as [|i l IH]; intros s.
  - destruct s as [[? ? ? ? ? ? ? []] []]; reflexivity.
  - cbn [foldl]. rewrite IH. reflexivity.
Qed.

Lemma stop_all_sources_unfold s :
  stop_all_sources s =
  let l := elements (sources (resources s)) in
  with_sources (delete_many l) (with_bufferSources (stop_many l) s).
Proof. unfold stop_all_sources. apply stop_loop_unfold. Qed.

Lemma resume_denied a s :
  startConversation_resume a false s =
  (stopConversation
     (setError (Some
        "Failed to connect to the live agent. Check microphone permissions.")
        (setIsConnecting false
           (console_write "Failed to start live conversation:" s))),
   Some ()).
Proof. reflexivity. Qed.

Lemma transcription_stop s :
  transcription (ui (stopConversation s)) = transcription (ui s).
Proof. by rewrite stopConversation_unfold. Qed.

Lemma transcription_apply_deltas m s :
  transcription (ui (apply_deltas m s)) = transcription (ui s).
Proof.
  unfold apply_deltas.
  destruct (outputTranscription m), (inputTranscription m); reflexivity.
Qed.

Lemma transcription_interrupt m s :
  transcription (ui (interrupt m s)) = transcription (ui s).
Proof.
  unfold interrupt. destruct (interrupted m); [|done].
  by rewrite stop_all_sources_unfold.
Qed.

Lemma transcription_complete_turn m s :
  transcription (ui (complete_turn m s))
  = transcription (ui s) ++ finished_turn m s.
Proof.
  unfold complete_turn, finished_turn.
  destruct (turnComplete m); cbn; [|by rewrite app_nil_r].
  destruct (truthy _ || truthy _); cbn; [done|by rewrite app_nil_r].
Qed.

Lemma transcription_handle_audio now m s :
  transcription (ui (handle_audio decodeAudioData now m s).1)
  = transcription (ui s).
Proof.
  rewrite handle_audio_unfold.
  destruct (playable m s) as [[d g]|]; [|done].
  destruct (decodeAudioData d); reflexivity.
Qed.

Lemma currentTurnRef_handle_audio now m s :
  currentTurnRef (ui (handle_audio decodeAudioData now m s).1)
  = currentTurnRef (ui s).
Proof.
  rewrite handle_audio_unfold.
  destruct (playable m s) as [[d g]|]; [|done].
  destruct (decodeAudioData d); reflexivity.
Qed.

Lemma currentTurnRef_apply_deltas m s :
  currentTurnRef (ui (apply_deltas m s)) = currentTurnRef (ui s).
Proof.
  unfold apply_deltas.
  destruct (outputTranscription m), (inputTranscription m); reflexivity.
Qed.

(** What [onmessage] does to the turn log: nothing unless it reaches the
    turn-completion branch. *)
Lemma transcription_onmessage now m s :
  transcription (ui (exec (onmessage now m) s))
  = transcription (ui s)
    ++ (if completed (handle_audio decodeAudioData now m) (apply_deltas m s)
        then finished_turn m s else []).
Proof.
  unfold exec, completed. rewrite onmessage_unfold.
  pose proof (transcription_handle_audio now m (apply_deltas m s)) as Ht.
  pose proof (currentTurnRef_handle_audio now m (apply_deltas m s)) as Hr.
  destruct (handle_audio decodeAudioData now m (apply_deltas m s))
    as [s2 [[]|]]; cbn [fst snd] in *.
  - rewrite bool_decide_eq_true_2 by eauto.
    rewrite transcription_interrupt, transcription_complete_turn, Ht.
    rewrite transcription_apply_deltas. f_equal.
    unfold finished_turn. by rewrite Hr, currentTurnRef_apply_deltas.
  - rewrite bool_decide_eq_false_2 by (intros [? ?]; discriminate).
    by rewrite Ht, transcription_apply_deltas, app_nil_r.
Qed.

Lemma transcription_step e s :
  ∃ new, transcription (ui (step e s)) = transcription (ui s) ++ new
         ∧ (completes_turn e = false → new = []).
Proof.
  destruct e as [|g|c|c|c now m|c|c|p d|i|id|]; cbn [LiveConversation.step].
  - exists []. split; [|done]. rewrite app_nil_r.
    destruct (isConnecting (ui s)); [done|]. unfold toggleConversation.
    destruct (isActive (ui s) || isConnecting (ui s));
      [apply transcription_stop|reflexivity].
  - exists []. split; [|done]. rewrite app_nil_r.
    destruct (suspended (platform s)) as [|a rest]; [done|].
    destruct g.
    + reflexivity.
    + unfold exec. rewrite resume_denied. cbn [fst].
      by rewrite transcription_stop.
  - exists []. by rewrite app_nil_r.
  - exists []. split; [|done]. rewrite app_nil_r. unfold with_closure.
    destruct (connections (platform s) !! c); reflexivity.
  - unfold with_closure.
    destruct (connections (platform s) !! c).
    + eexists. split; [apply transcription_onmessage|].
      cbn [completes_turn]. intros Hm. unfold finished_turn. rewrite Hm.
      by destruct (completed _ _).
    + exists []. by rewrite app_nil_r.
  - exists []. split; [|done]. rewrite app_nil_r. unfold with_closure.
    destruct (connections (platform s) !! c); [|done].
    unfold onerror. by rewrite transcription_stop.
  - exists []. split; [|done]. rewrite app_nil_r. unfold with_closure.
    destruct (connections (platform s) !! c) as [k|]; [|done].
    unfold onclose. destruct (cl_isActive (closure k)); [|done].
    by rewrite transcription_stop.
  - exists []. split; [|done]. rewrite app_nil_r.
    destruct (capturing p s); [|done]. unfold onaudioprocess.
    by destruct (sessionRef (ui s)).
  - exists []. split; [|done]. rewrite app_nil_r.
    by destruct (bufferSources (platform s) !! i).
  - exists []. split; [|done]. rewrite app_nil_r.
    destruct id as [|n]; [done|]. by case_bool_decide.
  - exists []. by rewrite app_nil_r.
Qed.

(** C10: the turn log is append-only.  [stopConversation], the error
    callback (which tears the session down) and starting a conversation
    leave it as it is; so does every event that is not a turn-complete
    message; and along any run the old log stays a prefix of the new one. *)
Theorem transcription_append_only :
  (∀ s, transcription (ui (stopConversation s)) = transcription (ui s))
  ∧ (∀ s, transcription (ui (onerror s)) = transcription (ui s))
  ∧ (∀ s, transcription (ui (toggleConversation s)) = transcription (ui s))
  ∧ (∀ a granted s,
       transcription (ui (exec (startConversation_resume a granted) s))
       = transcription (ui s))
  ∧ (∀ e s, completes_turn e = false →
       transcription (ui (step e s)) = transcription (ui s))
  ∧ (∀ trace s,
       transcription (ui s) `prefix_of` transcription (ui (run trace s))).
Proof.
  split; [apply transcription_stop|].
  split; [intros s; unfold onerror; by rewrite transcription_stop|].
  split.
  { intros s. unfold toggleConversation.
    destruct (isActive (ui s) || isConnecting (ui s));
      [apply transcription_stop|reflexivity]. }
  split.
  { intros a [] s; [reflexivity|].
    unfold exec. rewrite resume_denied. cbn [fst].
    by rewrite transcription_stop. }
  split.
  { intros e s He. destruct (transcription_step e s) as (new & -> & Hnew).
    by rewrite (Hnew He), app_nil_r. }
  intros trace. induction trace as [|e trace IH]; intros s; [done|].
  cbn. etrans; [|apply IH].
  destruct (transcription_step e s) as (new & -> & _). by eexists.
Qed.

(** C3: [stopConversation] can be called in any state and again right
    after: the first call releases the microphone stream, both audio contexts
    and the held graph nodes and resets the resource record; the second call
    changes nothing. *)
Theorem stopConversation_idempotent (s : State) :
  let s1 := stopConversation s in
  released (resources s) (platform s1)
  ∧ resources s1 = noResources
  ∧ sessionRef (ui s1) = None
  ∧ isActive (ui s1) = false
  ∧ stopConversation s1 = s1.
Proof.
  cbv zeta. split; [apply stopConversation_releases|].
  rewrite stopConversation_twice.
  rewrite stopConversation_unfold. by repeat split.
Qed.

(** C7, on the code: the error callback sets the error message and then calls
    [stopConversation], whose [setError(null)] clears it again; the teardown
    itself is the one of [stopConversation]. *)
Theorem onerror_clears_the_error (s : State) :
  let s' := onerror s in
  error (ui s') = None
  ∧ isActive (ui s') = false
  ∧ released (resources s) (platform s')
  ∧ resources s' = noResources.
Proof.
  cbv zeta. unfold onerror. split; [by rewrite stopConversation_unfold|].
  split; [by rewrite stopConversation_unfold|].
  split; [|by rewrite stopConversation_unfold].
  apply (stopConversation_releases
    (setError (Some "Live session encountered an error. Please try again.")
       (console_write "Live session error:" s))).
Qed.

(** C6, on the code: when [getUserMedia] rejects, the session is not opened,
    no connection is created and no new call is suspended, but the error
    message set by the catch block is cleared by the [stopConversation] that
    follows it. *)
Theorem microphone_denied_error_cleared (a : bool) (s : State) :
  let s' := exec (startConversation_resume a false) s in
  isActive (ui s') = false
  ∧ isConnecting (ui s') = false
  ∧ sessionRef (ui s') = None
  ∧ length (connections (platform s')) = length (connections (platform s))
  ∧ suspended (platform s') = suspended (platform s)
  ∧ console (platform s')
    = console (platform s) ++ ["Failed to start live conversation:"]
  ∧ error (ui s') = None.
Proof.
  cbv zeta. unfold exec. rewrite resume_denied. cbn [fst].
  rewrite stopConversation_unfold. cbn.
  repeat split.
  destruct (sessionRef (ui s)); cbn; [|done]. by rewrite length_alter.
Qed.


(** ** Transcript accumulation *)

Lemma append_empty_r (s : string) : s +:+ "" = s.
Proof.
  induction s as [|a s IH]; [done|].
  change (String a s +:+ "") with (String a (s +:+ "")). by rewrite IH.
Qed.

Lemma append_assoc (a b c : string) : (a +:+ b) +:+ c = a +:+ (b +:+ c).
Proof.
  induction a as [|x a IH]; [done|].
  change (String x (a +:+ b) +:+ c = String x (a +:+ (b +:+ c))).
  change (String x ((a +:+ b) +:+ c) = String x (a +:+ (b +:+ c))).
  by rewrite IH.
Qed.

Lemma currentTurn_apply_deltas m s :
  currentTurn (ui (apply_deltas m s))
  = {| user := user (currentTurn (ui s)) +:+ input_text m;
       model := model (currentTurn (ui s)) +:+ output_text m |}.
Proof.
  unfold apply_deltas, input_text, output_text.
  destruct (currentTurn (ui s)) as [u0 m0] eqn:Hc.
  destruct (outputTranscription m), (inputTranscription m); cbn;
    rewrite ?Hc, ?append_empty_r; reflexivity.
Qed.

Lemma onmessage_without_audio now m s :
  audioData m = None →
  onmessage now m s = (interrupt m (complete_turn m (apply_deltas m s)), Some ()).
Proof.
  intros Ha. rewrite onmessage_unfold, handle_audio_unfold.
  unfold playable. by rewrite Ha.
Qed.

Lemma ui_fields_interrupt m s :
  currentTurn (ui (interrupt m s)) = currentTurn (ui s)
  ∧ currentTurnRef (ui (interrupt m s)) = currentTurnRef (ui s)
  ∧ connections (platform (interrupt m s)) = connections (platform s).
Proof.
  unfold interrupt. destruct (interrupted m); [|done].
  by rewrite stop_all_sources_unfold.
Qed.

Lemma connections_apply_deltas m s :
  connections (platform (apply_deltas m s)) = connections (platform s).
Proof.
  unfold apply_deltas.
  destruct (outputTranscription m), (inputTranscription m); reflexivity.
Qed.

Lemma playable_apply_deltas m' m s :
  playable m' (apply_deltas m s) = playable m' s.
Proof.
  unfold apply_deltas.
  destruct (outputTranscription m), (inputTranscription m); reflexivity.
Qed.

(** A delta message followed by a render. *)
Lemma deliver_delta c now m s k :
  connections (platform s) !! c = Some k →
  is_delta m = true →
  let s' := step Render (step (OnMessage c now m) s) in
  currentTurn (ui s')
  = {| user := user (currentTurn (ui s)) +:+ input_text m;
       model := model (currentTurn (ui s)) +:+ output_text m |}
  ∧ currentTurnRef (ui s') = currentTurn (ui s')
  ∧ transcription (ui s') = transcription (ui s)
  ∧ connections (platform s') = connections (platform s).
Proof.
  intros Hk Hd. apply andb_true_iff in Hd as [Htc Ha].
  apply negb_true_iff in Htc. apply bool_decide_eq_true in Ha.
  cbv zeta. cbn [LiveConversation.step]. unfold with_closure. rewrite Hk.
  unfold exec. rewrite onmessage_without_audio by done. cbn [fst].
  unfold complete_turn. rewrite Htc.
  destruct (ui_fields_interrupt m (apply_deltas m s)) as (Hct & _ & Hcn).
  split; [|split; [|split]].
  - cbn. rewrite Hct. apply currentTurn_apply_deltas.
  - reflexivity.
  - cbn. by rewrite transcription_interrupt, transcription_apply_deltas.
  - cbn. by rewrite Hcn, connections_apply_deltas.
Qed.

Lemma deliver_cons c now m (l : list (N * LiveServerMessage)) s :
  run (deliver c ((now, m) :: l)) s
  = run (deliver c l) (step Render (step (OnMessage c now m) s)).
Proof. reflexivity. Qed.

Lemma deliver_deltas c (ds : list (N * LiveServerMessage)) : ∀ s k,
  connections (platform s) !! c = Some k →
  Forall (λ d, is_delta d.2 = true) ds →
  currentTurnRef (ui s) = currentTurn (ui s) →
  let s' := run (deliver c ds) s in
  currentTurn (ui s')
  = {| user := user (currentTurn (ui s))
               +:+ concat_strings (map (λ d, input_text d.2) ds);
       model := model (currentTurn (ui s))
                +:+ concat_strings (map (λ d, output_text d.2) ds) |}
  ∧ currentTurnRef (ui s') = currentTurn (ui s')
  ∧ transcription (ui s') = transcription (ui s)
  ∧ connections (platform s') = connections (platform s).
Proof.
  induction ds as [|[now m] ds IH]; intros s k Hk Hds Href.
  - cbn. rewrite !append_empty_r. by destruct (currentTurn (ui s)).
  - apply Forall_cons in Hds as [Hd Hds]. cbn [snd] in Hd.
    rewrite deliver_cons.
    pose proof (deliver_delta c now m s k Hk Hd) as Hstep.
    cbv zeta in Hstep. destruct Hstep as (Hct & Hrf & Htr & Hcn).
    assert (Hk' : connections
                    (platform (step Render (step (OnMessage c now m) s)))
                  !! c = Some k) by (rewrite Hcn; exact Hk).
    specialize (IH _ k Hk' Hds Hrf).
    cbv zeta in IH. destruct IH as (IH1 & IH2 & IH3 & IH4).
    cbv zeta.
    split; [|split; [exact IH2|split; [by rewrite IH3|by rewrite IH4]]].
    rewrite IH1, Hct. cbn [user model map snd concat_strings foldr].
    by rewrite !append_assoc.
Qed.

(** C5, as amended: after any sequence of transcript-delta messages the
    accumulators hold the concatenation of the deltas in arrival order; the
    turn-complete message then appends one record with that pair when at
    least one of the two strings is non-empty, and no record when both are
    empty; the accumulators are empty strings afterwards. *)
Theorem turn_logged_unless_empty c (ds : list (N * LiveServerMessage))
    now tc s k :
  connections (platform s) !! c = Some k →
  Forall (λ d, is_delta d.2 = true) ds →
  only_turn_complete tc = true →
  currentTurn (ui s) = emptyTurn →
  currentTurnRef (ui s) = emptyTurn →
  let local := concat_strings (map (λ d, input_text d.2) ds) in
  let remote := concat_strings (map (λ d, output_text d.2) ds) in
  let s1 := run (deliver c ds) s in
  let s2 := step (OnMessage c now tc) s1 in
  currentTurn (ui s1) = {| user := local; model := remote |}
  ∧ transcription (ui s2)
    = transcription (ui s)
      ++ (if truthy local || truthy remote
          then [{| user := local; model := remote |}] else [])
  ∧ currentTurn (ui s2) = emptyTurn.
Proof.
  intros Hk Hds Htc Hct Hrf. cbv zeta.
  assert (Hsync : currentTurnRef (ui s) = currentTurn (ui s)) by congruence.
  destruct (deliver_deltas c ds s k Hk Hds Hsync) as (H1 & H2 & H3 & H4).
  cbv zeta in H1, H2, H3, H4. rewrite Hct in H1. cbn [user model] in H1.
  split; [exact H1|].
  repeat (apply andb_true_iff in Htc as [Htc ?]).
  repeat match goal with
         | H : bool_decide _ = true |- _ => apply bool_decide_eq_true in H
         end.
  cbn [LiveConversation.step]. unfold with_closure. rewrite H4, Hk.
  unfold exec. rewrite onmessage_without_audio by done. cbn [fst].
  destruct (ui_fields_interrupt tc
              (complete_turn tc (apply_deltas tc (run (deliver c ds) s))))
    as (Hi & _ & _).
  rewrite Hi, transcription_interrupt, transcription_complete_turn.
  rewrite transcription_apply_deltas, H3.
  unfold finished_turn, complete_turn.
  rewrite currentTurnRef_apply_deltas, H2, H1, Htc. cbn [user model andb].
  split; [done|].
  by destruct (truthy _ || truthy _).
Qed.


(** ** The playback schedule *)










(** A chunk that decodes, in a message that is not an interruption. *)
Lemma onmessage_plays now m s d g len :
  playable m s = Some (d, g) → decodeAudioData d = Some len →
  interrupted m = false →
  let s' := exec (onmessage now m) s in
  let t := Z.max (nextStartTime (resources s)) (Z.of_N now) in
  bufferSources (platform s')
  = bufferSources (platform s)
    ++ [{| startTime := t; bufferLength := len; stopped := false |}]
  ∧ nextStartTime (resources s') = (t + Z.of_N len)%Z.
Proof.
  intros Hp Hd Hi. cbv zeta. rewrite <- (playable_apply_deltas m m s) in Hp.
  unfold exec. rewrite onmessage_unfold, handle_audio_unfold, Hp, Hd.
  cbn [fst]. unfold interrupt. rewrite Hi.
  unfold complete_turn, apply_deltas.
  destruct (outputTranscription m), (inputTranscription m),
    (turnComplete m); try destruct (truthy _ || truthy _); by split.
Qed.



(** C8, on the code: when the chunk of a message does not decode, the
    handler's promise rejects at the [await]: nothing is written to the
    console, no source is started and the session stays as it is, the next
    start time is only raised to the clock, and the rest of the message (turn
    completion, interruption) is not handled.  A later chunk is scheduled as
    if the failed one had not arrived. *)
Theorem decode_failure_rejects now m s d g :
  playable m s = Some (d, g) →
  decodeAudioData d = None →
  let r := onmessage now m s in
  r.2 = None
  ∧ console (platform r.1) = console (platform s)
  ∧ bufferSources (platform r.1) = bufferSources (platform s)
  ∧ sources (resources r.1) = sources (resources s)
  ∧ nextStartTime (resources r.1)
    = Z.max (nextStartTime (resources s)) (Z.of_N now)
  ∧ isActive (ui r.1) = isActive (ui s)
  ∧ sessionRef (ui r.1) = sessionRef (ui s)
  ∧ transcription (ui r.1) = transcription (ui s)
  ∧ currentTurn (ui r.1) = currentTurn (ui (apply_deltas m s))
  ∧ (∀ now' m' d' g' len,
       (now ≤ now')%N →
       playable m' s = Some (d', g') → decodeAudioData d' = Some len →
       interrupted m' = false →
       started_since (length (bufferSources (platform s)))
         (exec (onmessage now' m') r.1)
       = [{| startTime := Z.max (nextStartTime (resources s)) (Z.of_N now');
             bufferLength := len; stopped := false |}]).
Proof.
  intros Hp Hd. cbv zeta. rewrite <- (playable_apply_deltas m m s) in Hp.
  rewrite onmessage_unfold, handle_audio_unfold, Hp, Hd. cbn [fst snd].
  assert (Hst : bufferSources (platform (raise_to_clock now (apply_deltas m s)))
                = bufferSources (platform s)
                ∧ nextStartTime (resources (raise_to_clock now (apply_deltas m s)))
                  = Z.max (nextStartTime (resources s)) (Z.of_N now)
                ∧ ∀ m', playable m' (raise_to_clock now (apply_deltas m s))
                        = playable m' s).
  { unfold raise_to_clock, apply_deltas.
    by destruct (outputTranscription m), (inputTranscription m). }
  destruct Hst as (Hb & Ht & Hpl).
  split; [done|].
  split; [unfold raise_to_clock, apply_deltas;
          by destruct (outputTranscription m), (inputTranscription m)|].
  split; [exact Hb|].
  split; [unfold raise_to_clock, apply_deltas;
          by destruct (outputTranscription m), (inputTranscription m)|].
  split; [exact Ht|].
  split; [unfold raise_to_clock, apply_deltas;
          by destruct (outputTranscription m), (inputTranscription m)|].
  split; [unfold raise_to_clock, apply_deltas;
          by destruct (outputTranscription m), (inputTranscription m)|].
  split; [unfold raise_to_clock, apply_deltas;
          by destruct (outputTranscription m), (inputTranscription m)|].
  split; [done|].
  intros now' m' d' g' len Hle Hp' Hd' Hi'. rewrite <- Hpl in Hp'.
  destruct (onmessage_plays now' m' _ d' g' len Hp' Hd' Hi') as [Hb' _].
  unfold started_since. rewrite Hb', Hb, Ht, drop_app_length.
  do 2 f_equal. lia.
Qed.

(** ** Interruption *)

Lemma delete_many_spec l : ∀ x : gset nat, delete_many l x = x ∖ list_to_set l.
Proof.
  unfold delete_many. induction l as [|i l IH]; intros x; cbn.
  - by rewrite difference_empty_L.
  - rewrite IH. apply set_eq. intros j.
    rewrite !elem_of_difference, elem_of_union, elem_of_singleton. tauto.
Qed.

Lemma delete_many_elements (x : gset nat) : delete_many (elements x) x = ∅.
Proof.
  rewrite delete_many_spec, list_to_set_elements_L. apply difference_diag_L.
Qed.

Lemma stop_many_lookup l : ∀ (b : list AudioBufferSourceNode) i x,
  b !! i = Some x →
  stop_many l b !! i = Some (if decide (i ∈ l) then mark_stopped x else x).
Proof.
  unfold stop_many. induction l as [|j l IH]; intros b i x Hx; cbn [foldl].
  - rewrite decide_False by apply not_elem_of_nil. done.
  - destruct (decide (i = j)) as [->|Hne].
    + erewrite IH; last by rewrite list_lookup_alter_eq, Hx.
      rewrite (decide_True (P := j ∈ j :: l)) by left.
      by destruct (decide (j ∈ l)).
    + erewrite IH; last by rewrite list_lookup_alter_ne.
      destruct (decide (i ∈ l)) as [Hin|Hnin].
      * rewrite decide_True by (by right). done.
      * rewrite decide_False; [done|]. by intros [?|?]%elem_of_cons.
Qed.

Lemma stop_many_startTime l : ∀ b : list AudioBufferSourceNode,
  startTime <$> stop_many l b = startTime <$> b.
Proof.
  unfold stop_many. induction l as [|j l IH]; intros b; cbn [foldl]; [done|].
  rewrite IH. apply list_eq. intros i. rewrite !list_lookup_fmap.
  destruct (decide (i = j)) as [->|Hne].
  - rewrite list_lookup_alter_eq. by destruct (b !! j).
  - by rewrite list_lookup_alter_ne.
Qed.

Lemma interrupt_unfold m s :
  interrupted m = true →
  interrupt m s =
  set_nextStartTime 0
    (with_sources (delete_many (elements (sources (resources s))))
       (with_bufferSources (stop_many (elements (sources (resources s)))) s)).
Proof. intros Hi. unfold interrupt. by rewrite Hi, stop_all_sources_unfold. Qed.

Lemma startTimes_onmessage_plays now m s d g len :
  playable m s = Some (d, g) → decodeAudioData d = Some len →
  startTime <$> bufferSources (platform (exec (onmessage now m) s))
  = (startTime <$> bufferSources (platform s))
    ++ [Z.max (nextStartTime (resources s)) (Z.of_N now)].
Proof.
  intros Hp Hd. rewrite <- (playable_apply_deltas m m s) in Hp.
  unfold exec. rewrite onmessage_unfold, handle_audio_unfold, Hp, Hd.
  cbn [fst].
  assert (Hs : ∀ s2, startTime <$> bufferSources
                       (platform (interrupt m (complete_turn m s2)))
                     = startTime <$> bufferSources (platform s2)).
  { intros s2. unfold interrupt. destruct (interrupted m).
    - rewrite stop_all_sources_unfold. cbn. rewrite stop_many_startTime.
      unfold complete_turn. destruct (turnComplete m); [|done].
      by destruct (truthy _ || truthy _).
    - unfold complete_turn. destruct (turnComplete m); [|done].
      by destruct (truthy _ || truthy _). }
  rewrite Hs. cbn. rewrite fmap_app. cbn. unfold apply_deltas.
  by destruct (outputTranscription m), (inputTranscription m).
Qed.

(** C2, as amended: an interruption stops every source of the active set and
    empties the set, and resets the next start time to 0; the next chunk is
    then scheduled at max(0, clock), that is exactly at the clock's current
    time, whatever backlog was cancelled. *)
Theorem interruption_resets_schedule now m s :
  interrupted m = true →
  completed (onmessage now m) s = true →
  let s' := exec (onmessage now m) s in
  sources (resources s') = ∅
  ∧ (∀ i b, i ∈ sources (resources s) →
       bufferSources (platform s) !! i = Some b →
       bufferSources (platform s') !! i
       = Some {| startTime := startTime b; bufferLength := bufferLength b;
                 stopped := true |})
  ∧ nextStartTime (resources s') = 0%Z
  ∧ (∀ now' m' d g len,
       playable m' s' = Some (d, g) → decodeAudioData d = Some len →
       let s'' := exec (onmessage now' m') s' in
       startTime <$> bufferSources (platform s'')
       = (startTime <$> bufferSources (platform s')) ++ [Z.of_N now']).
Proof.
  intros Hi Hdone. cbv zeta.
  assert (Hnext : nextStartTime (resources (exec (onmessage now m) s)) = 0%Z
    ∧ sources (resources (exec (onmessage now m) s)) = ∅
    ∧ ∀ i b, i ∈ sources (resources s) →
        bufferSources (platform s) !! i = Some b →
        bufferSources (platform (exec (onmessage now m) s)) !! i
        = Some (mark_stopped b)).
  { unfold completed in Hdone. unfold exec. revert Hdone.
    rewrite onmessage_unfold, handle_audio_unfold.
    assert (Hd : sources (resources (apply_deltas m s)) = sources (resources s)
                 ∧ bufferSources (platform (apply_deltas m s))
                   = bufferSources (platform s)).
    { unfold apply_deltas.
      by destruct (outputTranscription m), (inputTranscription m). }
    destruct Hd as [Hso Hbs]. revert Hso Hbs.
    generalize (apply_deltas m s). intros s1 Hso Hbs.
    assert (Hfin : ∀ s2,
      sources (resources s) ⊆ sources (resources s2) →
      (∀ i b, bufferSources (platform s) !! i = Some b →
              bufferSources (platform s2) !! i = Some b) →
      nextStartTime (resources (interrupt m (complete_turn m s2))) = 0%Z
      ∧ sources (resources (interrupt m (complete_turn m s2))) = ∅
      ∧ ∀ i b, i ∈ sources (resources s) →
          bufferSources (platform s) !! i = Some b →
          bufferSources (platform (interrupt m (complete_turn m s2))) !! i
          = Some (mark_stopped b)).
    { intros s2 Hsub Hkeep. rewrite interrupt_unfold by done.
      assert (Hct : sources (resources (complete_turn m s2))
                    = sources (resources s2)
                    ∧ bufferSources (platform (complete_turn m s2))
                      = bufferSources (platform s2)).
      { unfold complete_turn. destruct (turnComplete m); [|done].
        by destruct (truthy _ || truthy _). }
      destruct Hct as [Hct1 Hct2]. unfold resources in *. cbn.
      rewrite Hct1, Hct2.
      split; [done|]. split; [apply delete_many_elements|].
      intros i b Hin Hb. rewrite (stop_many_lookup _ _ i b) by auto.
      rewrite decide_True; [done|]. apply elem_of_elements. by apply Hsub. }
    destruct (playable m s1) as [[d g]|]; cbn [fst snd].
    - destruct (decodeAudioData d) as [len|]; cbn [fst snd].
      + intros _. apply Hfin.
        * unfold resources in *. cbn. rewrite Hso. apply union_subseteq_l.
        * intros i b Hb. cbn. rewrite Hbs. by apply lookup_app_l_Some.
      + intros H. apply bool_decide_eq_true in H as [? H]. discriminate.
    - intros _. apply Hfin; [by rewrite Hso|]. intros i b. by rewrite Hbs. }
  destruct Hnext as (Ht & Hs & Hstop).
  split; [done|]. split; [exact Hstop|]. split; [done|].
  intros now' m' d g len Hp Hd.
  rewrite (startTimes_onmessage_plays now' m' _ d g len Hp Hd), Ht.
  f_equal. f_equal. lia.
Qed.


(** ** Capture *)

Lemma sent_reactions l : ∀ k,
  sent (foldl (λ k r, run_reaction r k) k l) = sent k ++ omap queued_input l
  ∧ promise (foldl (λ k r, run_reaction r k) k l) = promise k.
Proof.
  induction l as [|r l IH]; intros k; cbn [foldl omap].
  - by rewrite app_nil_r.
  - destruct (IH (run_reaction r k)) as [-> ->].
    destruct r; cbn; [by rewrite <- app_assoc|done].
Qed.

(** Resolving the promise flushes the queue in order and leaves nothing
    queued. *)
Lemma settle_flushes k :
  sent (settle k) = transmitted k ∧ promise (settle k) = Fulfilled.
Proof.
  unfold settle, transmitted. destruct (promise k) as [l|] eqn:Hp.
  - destruct (sent_reactions l
      {| promise := Fulfilled; sent := sent k; closeCalls := closeCalls k;
         closure := closure k |}) as [-> ->]. done.
  - by rewrite app_nil_r.
Qed.

Lemma transmitted_settle k : transmitted (settle k) = transmitted k.
Proof.
  destruct (settle_flushes k) as [Hs Hp].
  unfold transmitted at 1. by rewrite Hs, Hp, app_nil_r.
Qed.


Lemma transmitted_on_alter f c s :
  (∀ k, transmitted (f k) = transmitted k) →
  transmitted_on c (with_connections (alter f c) s) = transmitted_on c s.
Proof.
  intros Hf. unfold transmitted_on. cbn. rewrite list_lookup_alter_eq.
  destruct (connections (platform s) !! c); cbn; [apply Hf|done].
Qed.

Lemma transmitted_on_alter_ne f c c' s :
  c ≠ c' →
  transmitted_on c (with_connections (alter f c') s) = transmitted_on c s.
Proof.
  intros Hne. unfold transmitted_on. cbn.
  by rewrite list_lookup_alter_ne.
Qed.


(** What a message leaves alone. *)
Lemma onmessage_frame now m s :
  let s' := exec (onmessage now m) s in
  sessionRef (ui s') = sessionRef (ui s)
  ∧ connections (platform s') = connections (platform s)
  ∧ nodes (platform s') = nodes (platform s)
  ∧ contexts (platform s') = contexts (platform s)
  ∧ console (platform s') = console (platform s)
  ∧ ∀ p ctx, (ENode p, EDestination ctx) ∈ edges (platform s')
             ↔ (ENode p, EDestination ctx) ∈ edges (platform s).
Proof.
  cbv zeta. unfold exec. rewrite onmessage_unfold, handle_audio_unfold.
  assert (Hrest : ∀ s2,
    sessionRef (ui (interrupt m (complete_turn m s2))) = sessionRef (ui s2)
    ∧ connections (platform (interrupt m (complete_turn m s2)))
      = connections (platform s2)
    ∧ nodes (platform (interrupt m (complete_turn m s2))) = nodes (platform s2)
    ∧ contexts (platform (interrupt m (complete_turn m s2)))
      = contexts (platform s2)
    ∧ console (platform (interrupt m (complete_turn m s2)))
      = console (platform s2)
    ∧ edges (platform (interrupt m (complete_turn m s2)))
      = edges (platform s2)).
  { intros s2. unfold interrupt, complete_turn.
    destruct (interrupted m); [rewrite stop_all_sources_unfold|];
      destruct (turnComplete m); try done;
      by destruct (truthy _ || truthy _). }
  assert (Hd : sessionRef (ui (apply_deltas m s)) = sessionRef (ui s)
    ∧ platform (apply_deltas m s) = platform s).
  { unfold apply_deltas.
    by destruct (outputTranscription m), (inputTranscription m). }
  destruct Hd as [Hd1 Hd2]. revert Hd1 Hd2.
  generalize (apply_deltas m s). intros s1 Hd1 Hd2.
  destruct (playable m s1) as [[d g]|]; cbn [fst].
  - destruct (decodeAudioData d) as [len|]; cbn [fst].
    + destruct (Hrest (enqueue len g (raise_to_clock now s1)))
        as (-> & -> & -> & -> & -> & ->).
      cbn. rewrite Hd1, Hd2. repeat split; try done.
      * intros [?|Hin%list_elem_of_singleton]%elem_of_app; [done|].
        discriminate.
      * intros ?. apply elem_of_app. by left.
    + cbn. by rewrite Hd1, Hd2.
  - destruct (Hrest s1) as (-> & -> & -> & -> & -> & ->).
    by rewrite Hd1, Hd2.
Qed.












End Properties.

(** ** The properties on the sample runs *)


Lemma open_session_connection :
  ∃ k, connections (platform open_session) !! 0 = Some k.
Proof. lazy. eauto. Qed.

(** The sample session is open, holds its resources and has nothing
    scheduled. *)
Example open_session_fields :
  isActive (ui open_session) = true
  ∧ isConnecting (ui open_session) = false
  ∧ sessionRef (ui open_session) = Some 0
  ∧ scriptProcessor (resources open_session) = Some 4
  ∧ outputGainNode (resources open_session) = Some 2
  ∧ nextStartTime (resources open_session) = 0%Z
  ∧ length (bufferSources (platform open_session)) = 0.
Proof. lazy. by repeat split. Qed.



(** C2 as stated fails: with the clock at frame 150 the interruption leaves
    the next start time at 0, not at 150. *)
Lemma interruption_resets_to_zero_not_to_the_clock :
  nextStartTime (resources interrupted_session) ≠ 150%Z.
Proof. lazy. discriminate. Qed.

(** C2 as amended, on the sample session: the interruption empties the
    active set and a chunk that arrives at frame 400 starts at 400. *)
Lemma interruption_resets_schedule_witness :
  sources (resources interrupted_session) = ∅
  ∧ nextStartTime (resources interrupted_session) = 0%Z
  ∧ startTime <$> bufferSources
      (platform (exec (onmessage sample_decode 400
                         (audio_message "chunk300")) interrupted_session))
    = [100; 12100; 400]%Z.
Proof.
  assert (H2 : completed (onmessage sample_decode 150 interrupted_message)
                 playing_session = true) by (lazy; reflexivity).
  destruct (interruption_resets_schedule sample_decode 150
              interrupted_message playing_session eq_refl H2)
    as (Hs & _ & Ht & Hnext).
  split; [exact Hs|]. split; [exact Ht|].
  assert (Hp : playable (audio_message "chunk300") interrupted_session
               = Some ("chunk300", 2)) by (lazy; reflexivity).
  unfold interrupted_session.
  rewrite (Hnext 400%N (audio_message "chunk300") "chunk300" 2 7200%N Hp
             eq_refl).
  lazy. reflexivity.
Defined.

(** C3 on the open sample session: the first stop releases the microphone
    and both contexts, the second changes nothing. *)
Lemma stopConversation_idempotent_witness :
  let s1 := stopConversation open_session in
  stopConversation s1 = s1
  ∧ streams (platform s1) = [false]
  ∧ contexts (platform s1) = [false; false].
Proof.
  destruct (stopConversation_idempotent open_session) as (_ & _ & _ & _ & H).
  cbv zeta. split; [exact H|]. split; lazy; reflexivity.
Defined.


(** C5 as stated fails: with no delta, or with one delta whose text is
    empty, the turn-complete message appends no record. *)
Lemma empty_turn_appends_no_record :
  transcription
    (ui (sample_run (deliver 0 [] ++ [OnMessage 0 40 turn_complete_message])
           open_session))
  ≠ transcription (ui open_session) ++ [emptyTurn]
  ∧ transcription
      (ui (sample_run (deliver 0 [(10%N, input_delta "")]
                       ++ [OnMessage 0 40 turn_complete_message])
             open_session))
    ≠ transcription (ui open_session) ++ [emptyTurn].
Proof. split; lazy; discriminate. Qed.

(** C5 on the local deltas "hel", "lo" and the remote delta "hi there". *)
Lemma turn_logged_unless_empty_witness :
  let s1 := run sample_decode sample_blob (deliver 0 hello_deltas)
              open_session in
  let s2 := step sample_decode sample_blob
              (OnMessage 0 40 turn_complete_message) s1 in
  currentTurn (ui s1) = {| user := "hello"; model := "hi there" |}
  ∧ transcription (ui s2) = [{| user := "hello"; model := "hi there" |}]
  ∧ currentTurn (ui s2) = emptyTurn.
Proof.
  destruct open_session_connection as [k Hk].
  assert (Hds : Forall (λ d : N * LiveServerMessage, is_delta d.2 = true)
                  hello_deltas) by (by repeat constructor).
  assert (Hct : currentTurn (ui open_session) = emptyTurn)
    by (lazy; reflexivity).
  assert (Hrf : currentTurnRef (ui open_session) = emptyTurn)
    by (lazy; reflexivity).
  destruct (turn_logged_unless_empty sample_decode sample_blob 0 hello_deltas
              40%N turn_complete_message open_session k Hk Hds eq_refl
              Hct Hrf) as (H1 & H2 & H3).
  cbv zeta. split; [rewrite H1; lazy; reflexivity|]. split; [|exact H3].
  rewrite H2. lazy. reflexivity.
Defined.

(** C8 on a message whose chunk does not decode and which also completes the
    turn. *)
Lemma decode_failure_rejects_witness :
  let r := onmessage sample_decode 100 corrupt_message open_session in
  r.2 = None
  ∧ console (platform r.1) = console (platform open_session)
  ∧ bufferSources (platform r.1) = bufferSources (platform open_session)
  ∧ transcription (ui r.1) = transcription (ui open_session).
Proof.
  assert (Hp : playable corrupt_message open_session = Some ("corrupt", 2))
    by (lazy; reflexivity).
  destruct (decode_failure_rejects sample_decode 100 corrupt_message
              open_session "corrupt" 2 Hp eq_refl)
    as (H1 & H2 & H3 & _ & _ & _ & _ & H8 & _).
  cbv zeta. split; [exact H1|]. split; [exact H2|]. split; [exact H3|exact H8].
Defined.


(** What the turn-completion branch reads is the ref: a delta that the
    component has not rendered yet when the turn-complete message arrives is
    not in the record, and is dropped by the reset of the accumulators. *)
Example unrendered_delta_is_not_logged :
  let s := sample_run [OnMessage 0 10 (input_delta "hello");
                       OnMessage 0 40 turn_complete_message] open_session in
  transcription (ui s) = [] ∧ currentTurn (ui s) = emptyTurn.
Proof. lazy. by split. Qed.

(** C10 on the session that has logged one turn: the error callback, and a
    stop followed by a new start, keep the record. *)
Lemma transcription_append_only_witness :
  transcription (ui (step sample_decode sample_blob (OnError 0) logged_session))
  = transcription (ui logged_session)
  ∧ transcription (ui logged_session)
    `prefix_of` transcription
      (ui (run sample_decode sample_blob
             [Click; Click; GetUserMediaSettled true] logged_session)).
Proof.
  destruct (transcription_append_only sample_decode sample_blob)
    as (_ & _ & _ & _ & H5 & H6).
  split; [by apply H5|apply H6].
Defined.

(** C6 and C7 on the sample runs: no error message is left to display. *)
Example microphone_denied_from_the_initial_state :
  let s := sample_run [Click; GetUserMediaSettled false] initialState in
  error (ui s) = None ∧ isActive (ui s) = false
  ∧ connections (platform s) = []
  ∧ console (platform s) = ["Failed to start live conversation:"].
Proof. lazy. by repeat split. Qed.

Example transport_error_in_the_open_session :
  let s := sample_run [OnError 0] open_session in
  error (ui s) = None ∧ isActive (ui s) = false
  ∧ streams (platform s) = [false] ∧ contexts (platform s) = [false; false].
Proof. lazy. by repeat split. Qed.

(** * Further properties *)

Section MoreProperties.

Context (decodeAudioData : string → option N).
Context {Float32Array : Type} (createBlob : Float32Array → Blob).

Local Abbreviation step := (step decodeAudioData createBlob).
Local Abbreviation run := (run decodeAudioData createBlob).
Local Abbreviation onmessage := (onmessage decodeAudioData).

(** ** What the handlers leave alone *)

Lemma resume_granted_fields a s :
  let s' := exec (startConversation_resume a true) s in
  isActive (ui s') = isActive (ui s)
  ∧ isConnecting (ui s') = isConnecting (ui s)
  ∧ error (ui s') = error (ui s)
  ∧ sessionRef (ui s') = Some (length (connections (platform s)))
  ∧ sources (resources s') = ∅
  ∧ bufferSources (platform s') = bufferSources (platform s)
  ∧ suspended (platform s') = suspended (platform s)
  ∧ connections (platform s')
    = connections (platform s)
      ++ [{| promise := Pending []; sent := []; closeCalls := 0;
             closure := {| cl_stream := length (streams (platform s));
                           cl_inputAudioContext :=
                             length (contexts (platform s));
                           cl_inputAnalyser := length (nodes (platform s));
                           cl_isActive := a |} |}].
Proof. by repeat split. Qed.

Lemma onopen_fields k s :
  let s' := exec (onopen k) s in
  isActive (ui s') = true
  ∧ isConnecting (ui s') = false
  ∧ error (ui s') = error (ui s)
  ∧ sessionRef (ui s') = sessionRef (ui s)
  ∧ sources (resources s') = sources (resources s)
  ∧ bufferSources (platform s') = bufferSources (platform s)
  ∧ suspended (platform s') = suspended (platform s)
  ∧ connections (platform s') = connections (platform s).
Proof. by repeat split. Qed.

Lemma onmessage_ui_frame now m s :
  let s' := exec (onmessage now m) s in
  isActive (ui s') = isActive (ui s)
  ∧ isConnecting (ui s') = isConnecting (ui s)
  ∧ error (ui s') = error (ui s)
  ∧ suspended (platform s') = suspended (platform s).
Proof.
  cbv zeta. unfold exec. rewrite onmessage_unfold, handle_audio_unfold.
  assert (Hrest : ∀ s2,
    isActive (ui (interrupt m (complete_turn m s2))) = isActive (ui s2)
    ∧ isConnecting (ui (interrupt m (complete_turn m s2)))
      = isConnecting (ui s2)
    ∧ error (ui (interrupt m (complete_turn m s2))) = error (ui s2)
    ∧ suspended (platform (interrupt m (complete_turn m s2)))
      = suspended (platform s2)).
  { intros s2. unfold interrupt, complete_turn.
    destruct (interrupted m); [rewrite stop_all_sources_unfold|];
      destruct (turnComplete m); try done;
      by destruct (truthy _ || truthy _). }
  assert (Hd : isActive (ui (apply_deltas m s)) = isActive (ui s)
    ∧ isConnecting (ui (apply_deltas m s)) = isConnecting (ui s)
    ∧ error (ui (apply_deltas m s)) = error (ui s)
    ∧ suspended (platform (apply_deltas m s)) = suspended (platform s)).
  { unfold apply_deltas.
    by destruct (outputTranscription m), (inputTranscription m). }
  destruct Hd as (H1 & H2 & H3 & H4). revert H1 H2 H3 H4.
  generalize (apply_deltas m s). intros s1 H1 H2 H3 H4.
  destruct (playable m s1) as [[d g]|]; cbn [fst].
  - destruct (decodeAudioData d) as [len|]; cbn [fst].
    + destruct (Hrest (enqueue len g (raise_to_clock now s1)))
        as (-> & -> & -> & ->). by rewrite <- H1, <- H2, <- H3, <- H4.
    + by rewrite <- H1, <- H2, <- H3, <- H4.
  - destruct (Hrest s1) as (-> & -> & -> & ->). done.
Qed.

Lemma closure_promise_then r k : closure (promise_then r k) = closure k.
Proof. unfold promise_then. destruct (promise k), r; reflexivity. Qed.

Lemma closure_reactions l : ∀ k,
  closure (foldl (λ k r, run_reaction r k) k l) = closure k.
Proof.
  induction l as [|r l IH]; intros k; [done|]. cbn [foldl]. rewrite IH.
  by destruct r.
Qed.

Lemma closure_settle k : closure (settle k) = closure k.
Proof.
  unfold settle. destruct (promise k); [|done]. by rewrite closure_reactions.
Qed.

Lemma Forall_alter_closure (f : Connection → Connection) c
    (l : list Connection) :
  (∀ k, closure (f k) = closure k) →
  Forall (λ k, cl_isActive (closure k) = false) l →
  Forall (λ k, cl_isActive (closure k) = false) (alter f c l).
Proof.
  intros Hf Hl. apply Forall_alter; [done|]. intros k. by rewrite Hf.
Qed.

Lemma closures_inactive_stop s :
  closures_inactive s → closures_inactive (stopConversation s).
Proof.
  intros [Hs Hc]. rewrite stopConversation_unfold. split; [done|]. cbn.
  destruct (sessionRef (ui s)); cbn; [|done].
  apply Forall_alter_closure; [apply closure_promise_then|done].
Qed.

(** The callbacks are built with the [isActive] of the render in which the
    button was clicked, and the button starts a conversation only when that
    is false. *)
Lemma closures_inactive_step e s :
  closures_inactive s → closures_inactive (step e s).
Proof.
  intros Hi. pose proof Hi as [Hs Hc].
  destruct e as [|g|c|c|c now m|c|c|p d|i|id|]; cbn [LiveConversation.step].
  - destruct (isConnecting (ui s)) eqn:Hcn; [done|]. unfold toggleConversation.
    rewrite Hcn, orb_false_r. destruct (isActive (ui s)) eqn:Ha.
    + by apply closures_inactive_stop.
    + split; [|done]. cbn. apply Forall_app. split; [done|]. by repeat constructor.
  - destruct (suspended (platform s)) as [|a rest] eqn:Hsu; [done|].
    apply Forall_cons in Hs as [-> Hs].
    destruct g.
    + destruct (resume_granted_fields false (with_suspended (λ _, rest) s))
        as (_ & _ & _ & _ & _ & _ & H7 & H8).
      split; [by rewrite H7|]. rewrite H8. apply Forall_app. split; [done|].
      by repeat constructor.
    + unfold exec. rewrite resume_denied. cbn [fst].
      by apply closures_inactive_stop.
  - split; [done|]. cbn. apply Forall_alter_closure; [apply closure_settle|done].
  - unfold with_closure. by destruct (connections (platform s) !! c).
  - unfold with_closure. destruct (connections (platform s) !! c); [|done].
    destruct (onmessage_frame decodeAudioData now m s) as (_ & H2 & _).
    destruct (onmessage_ui_frame now m s) as (_ & _ & _ & H4).
    split; [by rewrite H4|by rewrite H2].
  - unfold with_closure. destruct (connections (platform s) !! c); [|done].
    unfold onerror. by apply closures_inactive_stop.
  - unfold with_closure. destruct (connections (platform s) !! c) as [k|]; [|done].
    unfold onclose. destruct (cl_isActive (closure k)); [|done].
    by apply closures_inactive_stop.
  - destruct (capturing p s); [|done]. unfold onaudioprocess.
    destruct (sessionRef (ui s)); [|done]. split; [done|]. cbn.
    apply Forall_alter_closure; [apply closure_promise_then|done].
  - by destruct (bufferSources (platform s) !! i).
  - destruct id as [|n]; [done|]. by case_bool_decide.
  - done.
Qed.

Lemma closures_inactive_run trace : ∀ s,
  closures_inactive s → closures_inactive (run trace s).
Proof.
  induction trace as [|e trace IH]; intros s Hs; [done|].
  apply (IH (step e s)). by apply closures_inactive_step.
Qed.

Lemma closures_inactive_initialState : closures_inactive initialState.
Proof. split; constructor. Qed.

(** X1: in every state the component reaches from its initial state, the
    close callback of the transport only writes to the console: the
    [isActive] it tests is the one its closure captured, which is false, so
    [stopConversation] is not called and nothing is released. *)
Theorem onclose_only_logs trace c :
  let s := run trace initialState in
  is_Some (connections (platform s) !! c) →
  step (OnClose c) s = console_write "Session closed:" s.
Proof.
  cbv zeta. intros [k Hk].
  destruct (closures_inactive_run trace initialState
              closures_inactive_initialState) as [_ Hc].
  cbn [LiveConversation.step]. unfold with_closure. rewrite Hk.
  unfold onclose.
  rewrite Forall_lookup in Hc. by rewrite (Hc c k Hk).
Qed.


(** ** The connecting flag and the error message *)

Lemma connecting_step e s :
  isConnecting (ui s) = true → ends_connecting e = false →
  isConnecting (ui (step e s)) = true.
Proof.
  intros Hc He.
  destruct e as [|g|c|c|c now m|c|c|p d|i|id|]; try discriminate He;
    cbn [LiveConversation.step].
  - by rewrite Hc.
  - destruct g; [|discriminate He].
    destruct (suspended (platform s)) as [|a rest]; [done|].
    by destruct (resume_granted_fields a (with_suspended (λ _, rest) s))
      as (_ & -> & _).
  - done.
  - unfold with_closure. destruct (connections (platform s) !! c); [|done].
    by destruct (onmessage_ui_frame now m s) as (_ & -> & _).
  - unfold with_closure. destruct (connections (platform s) !! c); [|done].
    unfold onerror. by rewrite stopConversation_unfold.
  - unfold with_closure.
    destruct (connections (platform s) !! c) as [k|]; [|done].
    unfold onclose. destruct (cl_isActive (closure k)); [|done].
    by rewrite stopConversation_unfold.
  - destruct (capturing p s); [|done]. unfold onaudioprocess.
    by destruct (sessionRef (ui s)).
  - by destruct (bufferSources (platform s) !! i).
  - destruct id as [|n]; [done|]. by case_bool_decide.
  - done.
Qed.

(** X2: [stopConversation] does not reset [isConnecting].  Once a start has
    set it, only the open callback or the failure of [getUserMedia] clears
    it: after any other events, the error callback included, the component
    is still connecting and a click on the (disabled) button does nothing. *)
Theorem connecting_is_sticky trace : ∀ s,
  isConnecting (ui s) = true →
  Forall (λ e, ends_connecting e = false) trace →
  isConnecting (ui (run trace s)) = true
  ∧ step Click (run trace s) = run trace s.
Proof.
  induction trace as [|e trace IH]; intros s Hc Htr.
  - split; [done|]. cbn. by rewrite Hc.
  - apply Forall_cons in Htr as [He Htr].
    apply (IH (step e s)); [by apply connecting_step|done].
Qed.

Lemma error_step e s : error (ui s) = None → error (ui (step e s)) = None.
Proof.
  intros Hn.
  destruct e as [|g|c|c|c now m|c|c|p d|i|id|]; cbn [LiveConversation.step].
  - destruct (isConnecting (ui s)); [done|]. unfold toggleConversation.
    destruct (isActive (ui s) || isConnecting (ui s)); [|done].
    by rewrite stopConversation_unfold.
  - destruct (suspended (platform s)) as [|a rest]; [done|]. destruct g.
    + by destruct (resume_granted_fields a (with_suspended (λ _, rest) s))
        as (_ & _ & -> & _).
    + unfold exec. rewrite resume_denied. cbn [fst].
      by rewrite stopConversation_unfold.
  - done.
  - unfold with_closure. by destruct (connections (platform s) !! c).
  - unfold with_closure. destruct (connections (platform s) !! c); [|done].
    by destruct (onmessage_ui_frame now m s) as (_ & _ & -> & _).
  - unfold with_closure. destruct (connections (platform s) !! c); [|done].
    unfold onerror. by rewrite stopConversation_unfold.
  - unfold with_closure.
    destruct (connections (platform s) !! c) as [k|]; [|done].
    unfold onclose. destruct (cl_isActive (closure k)); [|done].
    by rewrite stopConversation_unfold.
  - destruct (capturing p s); [|done]. unfold onaudioprocess.
    by destruct (sessionRef (ui s)).
  - by destruct (bufferSources (platform s) !! i).
  - destruct id as [|n]; [done|]. by case_bool_decide.
  - done.
Qed.

(** X3: whatever happens, no error message is ever displayed: each handler
    that sets the error also calls [stopConversation], which clears it, so
    after every event the error state is null and the error paragraph is not
    rendered. *)
Theorem error_never_displayed trace :
  error (ui (run trace initialState)) = None
  ∧ error_view (ui (run trace initialState)) = None.
Proof.
  assert (H : ∀ s, error (ui s) = None → error (ui (run trace s)) = None).
  { induction trace as [|e trace IH]; intros s Hs; [done|].
    apply (IH (step e s)). by apply error_step. }
  assert (He := H initialState eq_refl).
  split; [done|]. unfold error_view. by rewrite He.
Qed.

(** ** The turn log and its display *)

Lemma finished_turn_nonempty m s : Forall nonempty_turn (finished_turn m s).
Proof.
  unfold finished_turn.
  destruct (turnComplete m); cbn; [|constructor].
  destruct (truthy _ || truthy _) eqn:Ht; constructor; [|constructor].
  exact Ht.
Qed.

Lemma transcription_step_nonempty e s :
  ∃ new, transcription (ui (step e s)) = transcription (ui s) ++ new
         ∧ Forall nonempty_turn new.
Proof.
  destruct (decide (completes_turn e = true)) as [He|He].
  - destruct e as [|g|c|c|c now m|c|c|p d|i|id|]; try discriminate He.
    cbn [LiveConversation.step]. unfold with_closure.
    destruct (connections (platform s) !! c).
    + eexists. split; [apply transcription_onmessage|].
      destruct (completed _ _); [apply finished_turn_nonempty|constructor].
    + exists []. by rewrite app_nil_r.
  - apply not_true_is_false in He.
    destruct (transcription_step decodeAudioData createBlob e s)
      as (new & Hnew & Hn).
    exists new. split; [done|]. rewrite (Hn He). constructor.
Qed.

Lemma turn_bubbles_nonempty t : nonempty_turn t → turn_bubbles t ≠ [].
Proof.
  unfold nonempty_turn, turn_bubbles.
  destruct (truthy (user t)), (truthy (model t)); cbn; congruence.
Qed.

Lemma bubbles_cover (l : list TranscriptionTurn) :
  Forall (λ t, turn_bubbles t ≠ []) l →
  length l ≤ length (l ≫= turn_bubbles).
Proof.
  induction 1 as [|t l Ht Hl IH]; [done|].
  cbn. rewrite length_app. destruct (turn_bubbles t); [done|]. cbn. lia.
Qed.

(** X4: the turn log never holds a record whose two strings are both empty
    (the guard of the turn-completion branch is the only writer), so every
    logged turn is displayed with at least one bubble and the conversation
    pane shows at least as many bubbles as there are logged turns. *)
Theorem logged_turns_are_displayed trace :
  let c := ui (run trace initialState) in
  Forall nonempty_turn (transcription c)
  ∧ Forall (λ t, turn_bubbles t ≠ []) (transcription c)
  ∧ length (transcription c) ≤ length (conversation_view c).
Proof.
  cbv zeta.
  assert (H : ∀ s, Forall nonempty_turn (transcription (ui s)) →
                   Forall nonempty_turn (transcription (ui (run trace s)))).
  { induction trace as [|e trace IH]; intros s Hs; [done|].
    apply (IH (step e s)).
    destruct (transcription_step_nonempty e s) as (new & -> & Hnew).
    apply Forall_app. by split. }
  assert (Hn := H initialState (Forall_nil_2 _)).
  split; [done|].
  assert (Hb : Forall (λ t, turn_bubbles t ≠ [])
                 (transcription (ui (run trace initialState)))).
  { eapply Forall_impl; [exact Hn|]. apply turn_bubbles_nonempty. }
  split; [done|]. unfold conversation_view. rewrite length_app.
  apply bubbles_cover in Hb. lia.
Qed.

(** ** The active set of sources *)

Lemma sources_playing_empty s :
  sources (resources s) = ∅ → sources_playing s.
Proof. intros He i Hi. rewrite He in Hi. by apply not_elem_of_empty in Hi. Qed.

Lemma sources_playing_same s s' :
  sources (resources s') ⊆ sources (resources s) →
  bufferSources (platform s') = bufferSources (platform s) →
  sources_playing s → sources_playing s'.
Proof. intros Hsub Hb Hs i Hi. rewrite Hb. apply Hs. by apply Hsub. Qed.

Lemma sources_playing_onmessage now m s :
  sources_playing s → sources_playing (exec (onmessage now m) s).
Proof.
  intros Hs. unfold exec. rewrite onmessage_unfold, handle_audio_unfold.
  assert (Hd : sources_playing (apply_deltas m s)).
  { apply (sources_playing_same s); [|  |done];
      unfold apply_deltas;
      by destruct (outputTranscription m), (inputTranscription m). }
  revert Hd. generalize (apply_deltas m s). intros s1 Hd.
  assert (Hrest : ∀ s2, sources_playing s2 →
                        sources_playing (interrupt m (complete_turn m s2))).
  { intros s2 H2. unfold interrupt. destruct (interrupted m).
    - apply sources_playing_empty. rewrite stop_all_sources_unfold.
      apply delete_many_elements.
    - apply (sources_playing_same s2); [| |done];
        unfold complete_turn; destruct (turnComplete m); try done;
        by destruct (truthy _ || truthy _). }
  destruct (playable m s1) as [[d g]|]; cbn [fst]; [|by apply Hrest].
  destruct (decodeAudioData d) as [len|]; cbn [fst].
  - apply Hrest. intros i Hi. cbn in Hi. cbn.
    apply elem_of_union in Hi as [Hi|Hi].
    + destruct (Hd i Hi) as (b & Hb & Hst). exists b. split; [|done].
      by apply lookup_app_l_Some.
    + apply elem_of_singleton in Hi as ->. eexists.
      split; [rewrite lookup_app_r by done; by rewrite Nat.sub_diag|done].
  - by apply (sources_playing_same s1).
Qed.

Lemma sources_playing_step e s :
  sources_playing s → sources_playing (step e s).
Proof.
  intros Hs.
  assert (Hstop : ∀ s0, sources_playing (stopConversation s0)).
  { intros s0. apply sources_playing_empty.
    by rewrite stopConversation_unfold. }
  destruct e as [|g|c|c|c now m|c|c|p d|i|id|]; cbn [LiveConversation.step].
  - destruct (isConnecting (ui s)); [done|]. unfold toggleConversation.
    destruct (isActive (ui s) || isConnecting (ui s)); [apply Hstop|].
    by apply (sources_playing_same s).
  - destruct (suspended (platform s)) as [|a rest]; [done|]. destruct g.
    + apply sources_playing_empty.
      by destruct (resume_granted_fields a (with_suspended (λ _, rest) s))
        as (_ & _ & _ & _ & -> & _).
    + unfold exec. rewrite resume_denied. cbn [fst]. apply Hstop.
  - by apply (sources_playing_same s).
  - unfold with_closure. destruct (connections (platform s) !! c); [|done].
    by apply (sources_playing_same s).
  - unfold with_closure. destruct (connections (platform s) !! c); [|done].
    by apply sources_playing_onmessage.
  - unfold with_closure. destruct (connections (platform s) !! c); [|done].
    apply Hstop.
  - unfold with_closure.
    destruct (connections (platform s) !! c) as [k|]; [|done].
    unfold onclose. destruct (cl_isActive (closure k)); [apply Hstop|].
    by apply (sources_playing_same s).
  - destruct (capturing p s); [|done]. unfold onaudioprocess.
    destruct (sessionRef (ui s)); [|done]. by apply (sources_playing_same s).
  - destruct (bufferSources (platform s) !! i); [|done].
    apply (sources_playing_same s); [|done|done]. cbn.
    apply subseteq_difference_l. done.
  - destruct id as [|n]; [done|]. case_bool_decide; [|done].
    by apply (sources_playing_same s).
  - by apply (sources_playing_same s).
Qed.

(** X5: in every state reached from the initial one, each member of the
    active set is a source that was started and on which [stop()] was not
    called; and a source whose [ended] event has fired is not in the set. *)
Theorem active_sources_are_playing trace :
  let s := run trace initialState in
  sources_playing s
  ∧ ∀ i, i ∉ sources (resources (step (Ended i) s)).
Proof.
  cbv zeta.
  assert (Hp : sources_playing (run trace initialState)).
  { assert (H : ∀ s, sources_playing s → sources_playing (run trace s)).
    { induction trace as [|e trace IH]; intros s Hs; [done|].
      apply (IH (step e s)). by apply sources_playing_step. }
    apply H, sources_playing_empty. done. }
  split; [done|].
  intros i. cbn [LiveConversation.step].
  destruct (bufferSources (platform (run trace initialState)) !! i) eqn:Hb.
  - cbn. apply not_elem_of_difference. right. by apply elem_of_singleton.
  - intros Hi. destruct (Hp i Hi) as (b & Hb' & _). congruence.
Qed.

(** ** Closing the session *)

Lemma closeCalls_reactions l : ∀ k,
  closeCalls (foldl (λ k r, run_reaction r k) k l)
  = closeCalls k + length (filter (λ r, is_close r = true) l).
Proof.
  induction l as [|r l IH]; intros k; cbn [foldl].
  - cbn. lia.
  - rewrite IH. destruct r.
    + rewrite filter_cons_False by done. done.
    + rewrite filter_cons_True by done. cbn. lia.
Qed.

Lemma close_requests_settle k : close_requests (settle k) = close_requests k.
Proof.
  unfold close_requests at 1. destruct (settle_flushes k) as [_ ->].
  unfold settle, close_requests. destruct (promise k) as [l|]; [|lia].
  rewrite closeCalls_reactions. cbn. lia.
Qed.

Lemma close_requests_send b k :
  close_requests (promise_then (SendRealtimeInput b) k) = close_requests k.
Proof.
  unfold promise_then, close_requests. destruct (promise k) as [l|] eqn:Hp; cbn.
  - rewrite filter_app, length_app, filter_cons_False by done. cbn. lia.
  - by rewrite Hp.
Qed.

Lemma close_requests_close k :
  close_requests (promise_then CloseSession k) = S (close_requests k).
Proof.
  unfold promise_then, close_requests. destruct (promise k) as [l|] eqn:Hp; cbn.
  - rewrite filter_app, length_app, filter_cons_True by done. cbn. lia.
  - rewrite Hp. lia.
Qed.

Lemma transmitted_close k :
  transmitted (promise_then CloseSession k) = transmitted k.
Proof.
  unfold promise_then, transmitted. destruct (promise k) as [l|] eqn:Hp; cbn.
  - by rewrite omap_app, app_nil_r.
  - by rewrite Hp.
Qed.

Lemma close_discipline_alter f c0 s s' :
  sessionRef (ui s') = sessionRef (ui s) →
  connections (platform s') = alter f c0 (connections (platform s)) →
  (∀ k, close_requests (f k) = close_requests k) →
  close_discipline s → close_discipline s'.
Proof.
  intros Hr Hc Hf [H1 H2]. split.
  - intros c k. rewrite Hc, Hr, list_lookup_alter.
    destruct (decide (c0 = c)) as [->|Hne].
    + destruct (connections (platform s) !! c) as [k0|] eqn:Hk; [|done].
      cbn. intros [= <-]. rewrite Hf. by apply H1.
    + apply H1.
  - intros c. rewrite Hr, Hc, length_alter. apply H2.
Qed.

Lemma close_discipline_same s s' :
  sessionRef (ui s') = sessionRef (ui s) →
  connections (platform s') = connections (platform s) →
  close_discipline s → close_discipline s'.
Proof. intros Hr Hc [H1 H2]. split; rewrite Hr, Hc; done. Qed.

Lemma close_discipline_stop s :
  close_discipline s → close_discipline (stopConversation s).
Proof.
  intros [H1 H2]. rewrite stopConversation_unfold. split; [|done].
  intros c k. cbn. intros Hk. split; [|done].
  destruct (sessionRef (ui s)) as [c0|] eqn:Hr; cbn in Hk; [|by apply (H1 c k)].
  rewrite list_lookup_alter in Hk.
  destruct (decide (c0 = c)) as [->|Hne]; [|by apply (H1 c k)].
  destruct (connections (platform s) !! c) as [k0|] eqn:Hk0; [|done].
  injection Hk as <-. rewrite close_requests_close.
  destruct (H1 c k0 Hk0) as [_ H0]. rewrite H0; done.
Qed.

Lemma close_discipline_step e s :
  close_discipline s → close_discipline (step e s).
Proof.
  intros Hd.
  destruct e as [|g|c|c|c now m|c|c|p d|i|id|]; cbn [LiveConversation.step].
  - destruct (isConnecting (ui s)); [done|]. unfold toggleConversation.
    destruct (isActive (ui s) || isConnecting (ui s));
      [by apply close_discipline_stop|by apply (close_discipline_same s)].
  - destruct (suspended (platform s)) as [|a rest]; [done|].
    assert (Hd0 : close_discipline (with_suspended (λ _, rest) s))
      by (by apply (close_discipline_same s)).
    revert Hd0. generalize (with_suspended (λ _, rest) s). intros s0 [H1 H2].
    destruct g.
    + destruct (resume_granted_fields a s0)
        as (_ & _ & _ & H4 & _ & _ & _ & H8).
      split.
      * intros c k. rewrite H4, H8. intros Hk.
        destruct (decide (c < length (connections (platform s0))))
          as [Hlt|Hge].
        -- rewrite lookup_app_l in Hk by done.
           split; [by apply (H1 c k)|]. intros [= Heq]. lia.
        -- rewrite lookup_app_r in Hk by lia.
           destruct (c - length (connections (platform s0))) as [|?];
             [|done].
           injection Hk as <-. cbn. split; [lia|done].
      * intros c. rewrite H4, H8, length_app. intros [= Heq]. cbn. lia.
    + unfold exec. rewrite resume_denied. cbn [fst].
      apply close_discipline_stop. by apply (close_discipline_same s0).
  - apply (close_discipline_alter settle c s); [done|done| |done].
    apply close_requests_settle.
  - unfold with_closure. destruct (connections (platform s) !! c); [|done].
    by apply (close_discipline_same s).
  - unfold with_closure. destruct (connections (platform s) !! c); [|done].
    destruct (onmessage_frame decodeAudioData now m s) as (H1 & H2 & _).
    by apply (close_discipline_same s).
  - unfold with_closure. destruct (connections (platform s) !! c); [|done].
    unfold onerror. apply close_discipline_stop.
    by apply (close_discipline_same s).
  - unfold with_closure.
    destruct (connections (platform s) !! c) as [k|]; [|done].
    unfold onclose. destruct (cl_isActive (closure k)).
    + apply close_discipline_stop. by apply (close_discipline_same s).
    + by apply (close_discipline_same s).
  - destruct (capturing p s); [|done]. unfold onaudioprocess.
    destruct (sessionRef (ui s)) as [c0|] eqn:Hr; [|done].
    apply (close_discipline_alter
             (promise_then (SendRealtimeInput (createBlob d))) c0 s);
      [done|done| |done].
    intros k. apply close_requests_send.
  - destruct (bufferSources (platform s) !! i); [|done].
    by apply (close_discipline_same s).
  - destruct id as [|n]; [done|]. case_bool_decide; [|done].
    by apply (close_discipline_same s).
  - by apply (close_discipline_same s).
Qed.

Lemma close_discipline_initialState : close_discipline initialState.
Proof. split; [intros c k Hk; cbn in Hk; discriminate Hk|done]. Qed.

Lemma close_discipline_run trace : ∀ s,
  close_discipline s → close_discipline (run trace s).
Proof.
  induction trace as [|e trace IH]; intros s Hs; [done|].
  apply (IH (step e s)). by apply close_discipline_step.
Qed.

Lemma transmitted_on_same c s s' :
  connections (platform s') = connections (platform s) →
  transmitted_on c s' = transmitted_on c s.
Proof. intros H. unfold transmitted_on. by rewrite H. Qed.

Lemma transmitted_on_stop c s :
  transmitted_on c (stopConversation s) = transmitted_on c s.
Proof.
  rewrite stopConversation_unfold. unfold transmitted_on. cbn.
  destruct (sessionRef (ui s)) as [c0|]; cbn; [|done].
  rewrite list_lookup_alter. destruct (decide (c0 = c)) as [->|]; [|done].
  destruct (connections (platform s) !! c); cbn; [|done].
  by rewrite transmitted_close.
Qed.

(** X6: [session.close()] is asked at most once of each session, and once
    it has been asked nothing more is handed to that session: no event makes
    the component send on a session it has stopped. *)
Theorem no_send_after_close trace c k :
  let s := run trace initialState in
  connections (platform s) !! c = Some k →
  close_requests k ≤ 1
  ∧ (1 ≤ close_requests k →
     ∀ e, transmitted_on c (step e s) = transmitted_on c s).
Proof.
  cbv zeta. intros Hk.
  destruct (close_discipline_run trace initialState
              close_discipline_initialState) as [H1 H2].
  destruct (H1 c k Hk) as [Hle Hcur]. split; [done|].
  intros Hreq e. revert Hk Hcur H2.
  generalize (run trace initialState). intros s Hk Hcur H2.
  destruct e as [|g|c'|c'|c' now m|c'|c'|p d|i|id|];
    cbn [LiveConversation.step].
  - destruct (isConnecting (ui s)); [done|]. unfold toggleConversation.
    destruct (isActive (ui s) || isConnecting (ui s));
      [apply transmitted_on_stop|by apply transmitted_on_same].
  - destruct (suspended (platform s)) as [|a rest]; [done|]. destruct g.
    + destruct (resume_granted_fields a (with_suspended (λ _, rest) s))
        as (_ & _ & _ & _ & _ & _ & _ & H8).
      unfold transmitted_on. rewrite H8. cbn.
      rewrite lookup_app_l; [done|]. by apply lookup_lt_Some in Hk.
    + unfold exec. rewrite resume_denied. cbn [fst].
      rewrite transmitted_on_stop. by apply transmitted_on_same.
  - destruct (decide (c = c')) as [<-|Hne].
    + apply transmitted_on_alter, transmitted_settle.
    + by apply transmitted_on_alter_ne.
  - unfold with_closure. destruct (connections (platform s) !! c'); [|done].
    by apply transmitted_on_same.
  - unfold with_closure. destruct (connections (platform s) !! c'); [|done].
    destruct (onmessage_frame decodeAudioData now m s) as (_ & H & _).
    by apply transmitted_on_same.
  - unfold with_closure. destruct (connections (platform s) !! c'); [|done].
    unfold onerror. rewrite transmitted_on_stop. by apply transmitted_on_same.
  - unfold with_closure.
    destruct (connections (platform s) !! c') as [k'|]; [|done].
    unfold onclose. destruct (cl_isActive (closure k')).
    + rewrite transmitted_on_stop. by apply transmitted_on_same.
    + by apply transmitted_on_same.
  - destruct (capturing p s); [|done]. unfold onaudioprocess.
    destruct (sessionRef (ui s)) as [c0|] eqn:Hr; [|done].
    destruct (decide (c = c0)) as [->|Hne].
    + specialize (Hcur eq_refl). lia.
    + by apply transmitted_on_alter_ne.
  - destruct (bufferSources (platform s) !! i); [|done].
    by apply transmitted_on_same.
  - destruct id as [|n]; [done|]. case_bool_decide; [|done].
    by apply transmitted_on_same.
  - by apply transmitted_on_same.
Qed.


Lemma closeCalls_settle k : closeCalls (settle k) = close_requests k.
Proof.
  unfold settle, close_requests. destruct (promise k) as [l|]; [|lia].
  rewrite closeCalls_reactions. done.
Qed.

(** X7: a conversation that is stopped while its session promise is still
    pending closes the session as soon as the promise resolves, and closes
    it once; as long as the session is the current one it has not been asked
    to close. *)
Theorem pending_session_closed_on_resolution trace c :
  let s := run trace initialState in
  sessionRef (ui s) = Some c →
  (∃ k, connections (platform s) !! c = Some k ∧ close_requests k = 0)
  ∧ ∃ k', connections
            (platform (step (SessionResolved c) (stopConversation s))) !! c
          = Some k'
          ∧ promise k' = Fulfilled ∧ closeCalls k' = 1.
Proof.
  cbv zeta. intros Hr.
  destruct (close_discipline_run trace initialState
              close_discipline_initialState) as [H1 H2].
  revert Hr H1 H2. generalize (run trace initialState). intros s Hr H1 H2.
  destruct (lookup_lt_is_Some_2 _ _ (H2 c Hr)) as [k Hk].
  destruct (H1 c k Hk) as [_ H0]. specialize (H0 Hr).
  split; [by exists k|].
  exists (settle (promise_then CloseSession k)).
  cbn [LiveConversation.step]. rewrite stopConversation_unfold. cbn.
  rewrite Hr. cbn. rewrite !list_lookup_alter_eq, Hk. cbn.
  split; [done|]. split; [by destruct (settle_flushes
                                         (promise_then CloseSession k))|].
  by rewrite closeCalls_settle, close_requests_close, H0.
Qed.

(** X8: once [stopConversation] has run, no [onaudioprocess] event has any
    effect (there is no session to send to), and the script processor that
    was held no longer fires at all. *)
Theorem no_capture_after_stop s :
  (∀ p d, step (AudioProcess p d) (stopConversation s) = stopConversation s)
  ∧ ∀ p, scriptProcessor (resources s) = Some p →
         capturing p (stopConversation s) = false.
Proof.
  split.
  - intros p d. cbn [LiveConversation.step].
    destruct (capturing p (stopConversation s)); [|done].
    unfold onaudioprocess. by rewrite stopConversation_unfold.
  - intros p Hp. destruct (stopConversation_releases s) as (_ & _ & Hn).
    unfold capturing.
    destruct (nodes (platform (stopConversation s)) !! p)
      as [[[] ctx]|]; try done.
    apply andb_false_intro2, bool_decide_eq_false. intros He.
    apply (Hn p) in He; [done|]. unfold held_nodes. rewrite Hp. cbn. left.
Qed.

(** ** The schedule cursor and the active set *)

Lemma before_cursor_empty s :
  sources (resources s) = ∅ → sources_before_cursor s.
Proof.
  intros He i b Hi. rewrite He in Hi. by apply not_elem_of_empty in Hi.
Qed.

Lemma before_cursor_same s s' :
  sources (resources s') ⊆ sources (resources s) →
  bufferSources (platform s') = bufferSources (platform s) →
  (nextStartTime (resources s) ≤ nextStartTime (resources s'))%Z →
  sources_before_cursor s → sources_before_cursor s'.
Proof.
  intros Hsub Hb Hn Hs i b Hi Hl. rewrite Hb in Hl.
  specialize (Hs i b (Hsub i Hi) Hl). lia.
Qed.

Lemma before_cursor_onmessage now m s :
  sources_playing s → sources_before_cursor s →
  sources_before_cursor (exec (onmessage now m) s).
Proof.
  intros Hp Hs. unfold exec. rewrite onmessage_unfold, handle_audio_unfold.
  assert (Hd : sources_before_cursor (apply_deltas m s)
               ∧ sources_playing (apply_deltas m s)).
  { split; [apply (before_cursor_same s); [| | |done]
           |apply (sources_playing_same s); [| |done]];
      unfold apply_deltas;
      by destruct (outputTranscription m), (inputTranscription m). }
  revert Hd. generalize (apply_deltas m s). intros s1 [Hd Hp1].
  assert (Hrest : ∀ s2, sources_before_cursor s2 →
                        sources_before_cursor (interrupt m (complete_turn m s2))).
  { intros s2 H2. unfold interrupt. destruct (interrupted m).
    - apply before_cursor_empty. rewrite stop_all_sources_unfold.
      apply delete_many_elements.
    - apply (before_cursor_same s2); [| | |done];
        unfold complete_turn; destruct (turnComplete m); try done;
        by destruct (truthy _ || truthy _). }
  assert (Hraise : sources_before_cursor (raise_to_clock now s1)).
  { apply (before_cursor_same s1); [done|done| |done]. cbn. lia. }
  destruct (playable m s1) as [[d g]|]; cbn [fst]; [|by apply Hrest].
  destruct (decodeAudioData d) as [len|]; cbn [fst]; [|done].
  apply Hrest. intros i b Hi Hl. cbn in Hi, Hl. cbn.
  apply elem_of_union in Hi as [Hi|Hi].
  - destruct (Hp1 i Hi) as (b0 & Hb0 & _).
    rewrite (lookup_app_l_Some _ _ _ _ Hb0) in Hl. injection Hl as <-.
    specialize (Hd i b0 Hi Hb0). lia.
  - apply elem_of_singleton in Hi as ->.
    rewrite lookup_app_r in Hl by done. rewrite Nat.sub_diag in Hl.
    injection Hl as <-. unfold duration. cbn. lia.
Qed.

Lemma before_cursor_step e s :
  sources_playing s → sources_before_cursor s →
  sources_before_cursor (step e s).
Proof.
  intros Hp Hs.
  assert (Hstop : ∀ s0, sources_before_cursor (stopConversation s0)).
  { intros s0. apply before_cursor_empty.
    by rewrite stopConversation_unfold. }
  destruct e as [|g|c|c|c now m|c|c|p d|i|id|]; cbn [LiveConversation.step].
  - destruct (isConnecting (ui s)); [done|]. unfold toggleConversation.
    destruct (isActive (ui s) || isConnecting (ui s)); [apply Hstop|].
    by apply (before_cursor_same s).
  - destruct (suspended (platform s)) as [|a rest]; [done|]. destruct g.
    + apply before_cursor_empty.
      by destruct (resume_granted_fields a (with_suspended (λ _, rest) s))
        as (_ & _ & _ & _ & -> & _).
    + unfold exec. rewrite resume_denied. cbn [fst]. apply Hstop.
  - by apply (before_cursor_same s).
  - unfold with_closure. destruct (connections (platform s) !! c); [|done].
    by apply (before_cursor_same s).
  - unfold with_closure. destruct (connections (platform s) !! c); [|done].
    by apply before_cursor_onmessage.
  - unfold with_closure. destruct (connections (platform s) !! c); [|done].
    apply Hstop.
  - unfold with_closure.
    destruct (connections (platform s) !! c) as [k|]; [|done].
    unfold onclose. destruct (cl_isActive (closure k)); [apply Hstop|].
    by apply (before_cursor_same s).
  - destruct (capturing p s); [|done]. unfold onaudioprocess.
    destruct (sessionRef (ui s)); [|done]. by apply (before_cursor_same s).
  - destruct (bufferSources (platform s) !! i); [|done].
    apply (before_cursor_same s); [|done|done|done]. cbn.
    apply subseteq_difference_l. done.
  - destruct id as [|n]; [done|]. case_bool_decide; [|done].
    by apply (before_cursor_same s).
  - by apply (before_cursor_same s).
Qed.

Lemma before_cursor_run trace : ∀ s,
  sources_playing s → sources_before_cursor s →
  sources_playing (run trace s) ∧ sources_before_cursor (run trace s).
Proof.
  induction trace as [|e trace IH]; intros s Hp Hs; [done|].
  apply (IH (step e s));
    [by apply sources_playing_step|by apply before_cursor_step].
Qed.

(** X9: a chunk never overlaps a source that is still in the active set: in
    every state reached from the initial one, each source of the set ends at
    or before [nextStartTime], and the source that the next audio message
    starts begins at or after that end. *)
Theorem chunk_starts_after_active_sources trace now m d g len i b :
  let s := run trace initialState in
  playable m s = Some (d, g) → decodeAudioData d = Some len →
  i ∈ sources (resources s) → bufferSources (platform s) !! i = Some b →
  (startTime b + duration b ≤ nextStartTime (resources s))%Z
  ∧ ∃ t, (startTime <$> bufferSources
                          (platform (exec (onmessage now m) s)))
           !! length (bufferSources (platform s)) = Some t
         ∧ (startTime b + duration b ≤ t)%Z.
Proof.
  cbv zeta. intros Hpl Hd Hi Hb.
  destruct (before_cursor_run trace initialState) as [_ Hc];
    [by apply sources_playing_empty|by apply before_cursor_empty|].
  specialize (Hc i b Hi Hb). split; [done|].
  exists (Z.max (nextStartTime (resources (run trace initialState)))
            (Z.of_N now)).
  erewrite startTimes_onmessage_plays by eassumption.
  split; [|lia].
  rewrite lookup_app_r by (by rewrite length_fmap).
  by rewrite length_fmap, Nat.sub_diag.
Qed.


(** X10: [stopConversation] cancels the animation frame it holds: when the
    frame that was pending comes due after the stop, its callback does not
    run. *)
Theorem stop_cancels_pending_frame s id :
  animationFrameId (resources s) = Some id →
  step (AnimationFrame id) (stopConversation s) = stopConversation s.
Proof.
  intros Hid. destruct id as [|n]; [done|]. cbn [LiveConversation.step].
  case_bool_decide as Hf; [|done]. exfalso. revert Hf.
  rewrite stopConversation_unfold. cbn. unfold resources in Hid.
  rewrite Hid. apply lookup_close.
Qed.

(** X11: the animation loop never draws: in every state the component
    reaches, a frame of the loop started by any session makes no call on
    either canvas, whatever the analysers hold, because the callback tests
    the [isActive] of the render in which the conversation was started. *)
Theorem visualization_never_draws trace c canvasRefInput canvasRefOutput
    analyserData :
  frame_calls c canvasRefInput canvasRefOutput analyserData
    (run trace initialState) = ([], []).
Proof.
  destruct (closures_inactive_run trace initialState
              closures_inactive_initialState) as [_ Hc].
  unfold frame_calls.
  destruct (connections (platform (run trace initialState)) !! c)
    as [k|] eqn:Hk; [|done].
  rewrite Forall_lookup in Hc. by rewrite (Hc c k Hk).
Qed.

End MoreProperties.

(** ** The earlier revision *)

Lemma earlier_stopConversation_unfold s :
  Earlier.stopConversation s =
  {| ui := Earlier.ui_after_stop (ui s);
     platform := Earlier.platform_after_stop (ui s) (platform s) |}.
Proof.
  destruct s as [[a c tr ct er cr sr [st ic oc og sp so nx af ia oa]] []].
  unfold Earlier.stopConversation, Earlier.ui_after_stop,
    Earlier.platform_after_stop.
  cbv zeta.
  rewrite !optionally_stop_tracks, !optionally_disconnect,
    !optionally_close_context.
  destruct sr; reflexivity.
Qed.

(** X14: the earlier revision's [stopConversation] cannot throw, releases
    the microphone, the two contexts and the two nodes it holds, asks the
    current session to close (one more [close] is made, or queued on its
    promise, and nothing else is handed to it) and forgets it, leaves the
    other sessions as they are, and a second call changes nothing: in
    particular it does not ask the session to close again. *)
Theorem earlier_stop_idempotent s :
  let s' := Earlier.stopConversation s in
  Earlier.released (resources s) (platform s')
  ∧ resources s' = noResources
  ∧ sessionRef (ui s') = None
  ∧ isActive (ui s') = false
  ∧ (∀ c k, sessionRef (ui s) = Some c →
            connections (platform s) !! c = Some k →
            ∃ k', connections (platform s') !! c = Some k'
                  ∧ close_requests k' = S (close_requests k)
                  ∧ transmitted k' = transmitted k)
  ∧ (∀ c, sessionRef (ui s) ≠ Some c →
          connections (platform s') !! c = connections (platform s) !! c)
  ∧ Earlier.stopConversation s' = s'.
Proof.
  cbv zeta. split; [|split; [|split; [|split; [|split; [|split]]]]];
    try (by rewrite earlier_stopConversation_unfold).
  - rewrite earlier_stopConversation_unfold. unfold Earlier.released, resources.
    destruct (audioResources (ui s)) as [st ic oc og sp so nx af ia oa] eqn:Hr.
    split; [|split].
    + intros m Hm. cbn in *. rewrite Hr. cbn. rewrite Hm. apply lookup_close.
    + intros c Hc. cbn in *. rewrite Hr. cbn.
      destruct Hc as [-> | ->]; cbn.
      * apply opt_close_keeps, lookup_close.
      * apply lookup_close.
    + intros n Hn e He. cbn in He, Hn. rewrite Hr in He. cbn in He.
      destruct Hn as [-> | ->].
      * by apply opt_cut_some in He.
      * apply opt_cut_subseteq in He. by apply opt_cut_some in He.
  - intros c k Hc Hk. rewrite earlier_stopConversation_unfold. cbn.
    rewrite Hc. cbn. rewrite list_lookup_alter_eq, Hk. cbn.
    eexists. split; [done|].
    by rewrite close_requests_close, transmitted_close.
  - intros c Hc. rewrite earlier_stopConversation_unfold. cbn.
    destruct (sessionRef (ui s)) as [c0|]; cbn; [|done].
    rewrite list_lookup_alter_ne; [done|]. congruence.
  - rewrite (earlier_stopConversation_unfold (Earlier.stopConversation s)).
    rewrite (earlier_stopConversation_unfold s). cbn.
    destruct (Earlier.platform_after_stop (ui s) (platform s)); reflexivity.
Qed.

Section EarlierProperties.

Context (decodeAudioData : string → option N).

Local Abbreviation onmessage := (Earlier.onmessage decodeAudioData).

Lemma earlier_handle_transcriptions_unfold m s :
  Earlier.handle_transcriptions m s = (Earlier.apply_deltas m s, Some ()).
Proof.
  unfold Earlier.handle_transcriptions, Earlier.apply_deltas.
  destruct (inputTranscription m), (outputTranscription m); reflexivity.
Qed.

Lemma earlier_handle_turnComplete_unfold m s :
  Earlier.handle_turnComplete m s = (Earlier.complete_turn m s, Some ()).
Proof.
  unfold Earlier.handle_turnComplete, Earlier.complete_turn.
  destruct (turnComplete m); reflexivity.
Qed.

Lemma earlier_handle_audio_unfold now m s :
  Earlier.handle_audio decodeAudioData now m s =
  if Earlier.malformed m then (s, None)
  else match Earlier.playable m s with
       | None => (s, Some ())
       | Some (d, g) =>
           match decodeAudioData d with
           | Some len => (enqueue len g (raise_to_clock now s), Some ())
           | None => (raise_to_clock now s, None)
           end
       end.
Proof.
  unfold Earlier.handle_audio, Earlier.malformed, Earlier.playable,
    Earlier.read_audioData.
  destruct (Earlier.firstPart m) as [[[[d|]|]]|];
    cbv [mbind Handler_bind gets mret Handler_ret throw Earlier.inlineData];
    try reflexivity;
    destruct (outputGainNode (resources s)) as [g|]; try reflexivity.
  destruct (truthy d); [|reflexivity].
  cbv [when schedule_audio await_decode mbind Handler_bind gets act].
  destruct (decodeAudioData d); reflexivity.
Qed.

Lemma earlier_onmessage_unfold now m s :
  onmessage now m s =
  Earlier.handle_audio decodeAudioData now m
    (Earlier.complete_turn (Earlier.base m)
       (Earlier.apply_deltas (Earlier.base m) s)).
Proof.
  unfold Earlier.onmessage.
  change ((Earlier.handle_transcriptions (Earlier.base m);;
           Earlier.handle_turnComplete (Earlier.base m);;
           Earlier.handle_audio decodeAudioData now m) s)
    with (match Earlier.handle_transcriptions (Earlier.base m) s with
          | (s1, Some _) =>
              match Earlier.handle_turnComplete (Earlier.base m) s1 with
              | (s2, Some _) => Earlier.handle_audio decodeAudioData now m s2
              | (s2, None) => (s2, None)
              end
          | (s1, None) => (s1, None)
          end).
  by rewrite earlier_handle_transcriptions_unfold,
    earlier_handle_turnComplete_unfold.
Qed.

Lemma earlier_audio_ui now m s :
  let s' := (Earlier.handle_audio decodeAudioData now m s).1 in
  transcription (ui s') = transcription (ui s)
  ∧ currentTurn (ui s') = currentTurn (ui s).
Proof.
  cbv zeta. rewrite earlier_handle_audio_unfold.
  destruct (Earlier.malformed m); [done|].
  destruct (Earlier.playable m s) as [[d g]|]; [|done].
  by destruct (decodeAudioData d).
Qed.

(** X15: in the earlier revision a turn-complete message always appends one
    record, the accumulators as the last render left them, whether or not
    they are empty and whether or not the audio part of the message then
    fails; the accumulators are reset. *)
Theorem earlier_turn_always_logged now m s :
  turnComplete (Earlier.base m) = true →
  let s' := exec (onmessage now m) s in
  transcription (ui s') = transcription (ui s) ++ [currentTurnRef (ui s)]
  ∧ currentTurn (ui s') = emptyTurn.
Proof.
  intros Ht. cbv zeta. unfold exec. rewrite earlier_onmessage_unfold.
  destruct (earlier_audio_ui now m
              (Earlier.complete_turn (Earlier.base m)
                 (Earlier.apply_deltas (Earlier.base m) s))) as [-> ->].
  unfold Earlier.complete_turn, Earlier.apply_deltas. rewrite Ht.
  by destruct (inputTranscription (Earlier.base m)),
    (outputTranscription (Earlier.base m)).
Qed.

(** X16: in the earlier revision a message whose first part carries no
    [inlineData] makes the handler reject (the [.data] of [undefined]), after
    the transcriptions and the turn completion of the same message have been
    handled; nothing is scheduled and nothing is written to the console. *)
Theorem earlier_part_without_inlineData_rejects now m s :
  Earlier.malformed m = true →
  let s' := exec (onmessage now m) s in
  completed (onmessage now m) s = false
  ∧ s' = Earlier.complete_turn (Earlier.base m)
           (Earlier.apply_deltas (Earlier.base m) s)
  ∧ bufferSources (platform s') = bufferSources (platform s)
  ∧ nextStartTime (resources s') = nextStartTime (resources s)
  ∧ console (platform s') = console (platform s).
Proof.
  intros Hm. cbv zeta. unfold exec, completed.
  rewrite earlier_onmessage_unfold, earlier_handle_audio_unfold, Hm.
  cbn [fst snd]. split; [done|]. split; [done|].
  unfold Earlier.complete_turn, Earlier.apply_deltas.
  by destruct (inputTranscription (Earlier.base m)),
    (outputTranscription (Earlier.base m)), (turnComplete (Earlier.base m)).
Qed.

Lemma earlier_grows_step now m s :
  let s' := exec (onmessage now m) s in
  bufferSources (platform s) `prefix_of` bufferSources (platform s')
  ∧ sources (resources s) ⊆ sources (resources s')
  ∧ (nextStartTime (resources s) ≤ nextStartTime (resources s'))%Z.
Proof.
  cbv zeta. unfold exec.
  rewrite earlier_onmessage_unfold, earlier_handle_audio_unfold.
  assert (Hd : let s1 := Earlier.complete_turn (Earlier.base m)
                           (Earlier.apply_deltas (Earlier.base m) s) in
               bufferSources (platform s1) = bufferSources (platform s)
               ∧ resources s1 = resources s).
  { unfold Earlier.complete_turn, Earlier.apply_deltas.
    by destruct (inputTranscription (Earlier.base m)),
      (outputTranscription (Earlier.base m)),
      (turnComplete (Earlier.base m)). }
  revert Hd. cbv zeta.
  generalize (Earlier.complete_turn (Earlier.base m)
                (Earlier.apply_deltas (Earlier.base m) s)).
  intros s1 [<- <-].
  destruct (Earlier.malformed m); cbn [fst]; [done|].
  destruct (Earlier.playable m s1) as [[d g]|]; cbn [fst]; [|done].
  destruct (decodeAudioData d) as [len|]; cbn [fst]; cbn.
  - split; [by apply prefix_app_r|]. split; [apply union_subseteq_l|lia].
  - split; [done|]. split; [done|lia].
Qed.

(** X17: the earlier revision has no way to cut playback short: whatever
    messages arrive, the sources already started stay as they are (none is
    stopped), the active set only grows and [nextStartTime] never goes
    back. *)
Theorem earlier_playback_only_grows l s :
  let s' := Earlier.receive decodeAudioData l s in
  bufferSources (platform s) `prefix_of` bufferSources (platform s')
  ∧ sources (resources s) ⊆ sources (resources s')
  ∧ (nextStartTime (resources s) ≤ nextStartTime (resources s'))%Z.
Proof.
  cbv zeta. revert s. induction l as [|[now m] l IH]; intros s; [done|].
  cbn [Earlier.receive foldl]. cbn [fst snd].
  destruct (earlier_grows_step now m s) as (H1 & H2 & H3).
  destruct (IH (exec (onmessage now m) s)) as (H4 & H5 & H6).
  unfold Earlier.receive in H4, H5, H6.
  split; [by etrans|]. split; [by etrans|lia].
Qed.

End EarlierProperties.

(** X18: in the earlier revision the turn log survives a stop, a session
    error and a session close, and is emptied, with the accumulators, by the
    start of the next conversation. *)
Theorem earlier_log_cleared_on_start s :
  transcription (ui (Earlier.stopConversation s)) = transcription (ui s)
  ∧ transcription (ui (Earlier.onerror s)) = transcription (ui s)
  ∧ transcription (ui (Earlier.onclose s)) = transcription (ui s)
  ∧ transcription (ui (Earlier.handleToggleConversation s))
    = (if isActive (ui s) || isConnecting (ui s)
       then transcription (ui s) else []).
Proof.
  unfold Earlier.onerror, Earlier.onclose, Earlier.handleToggleConversation.
  destruct (isActive (ui s) || isConnecting (ui s));
    by rewrite ?earlier_stopConversation_unfold.
Qed.

(** ** drawWaveform *)

Section WaveformProperties.

Import QArith Lqa Waveform.
Local Close Scope Q_scope.

Lemma inject_S (j : nat) :
  (inject_Z (Z.of_nat (S j)) == inject_Z (Z.of_nat j) + 1)%Q.
Proof. rewrite Nat2Z.inj_succ. unfold Z.succ. by rewrite inject_Z_plus. Qed.

Lemma number_nonneg (n : N) : (0 <= number n)%Q.
Proof.
  unfold number. change 0%Q with (inject_Z 0). rewrite <- Zle_Qle. lia.
Qed.

Lemma sample_range (d : Byte.byte) :
  (0 <= number (Byte.to_N d) ∧ number (Byte.to_N d) <= 255)%Q.
Proof.
  split; [apply number_nonneg|]. unfold number.
  change 255%Q with (inject_Z 255). rewrite <- Zle_Qle.
  pose proof (Byte.to_N_bounded d). lia.
Qed.

Lemma sample_height (d : Byte.byte) (h : Q) :
  (0 <= h → 0 <= number (Byte.to_N d) / 128 * h / 2
            ∧ number (Byte.to_N d) / 128 * h / 2 <= h)%Q.
Proof.
  intros Hh. destruct (sample_range d) as [H0 H1].
  revert H0 H1. generalize (number (Byte.to_N d)). intros q H0 H1.
  unfold Qdiv. change (/ 128)%Q with (1 # 128)%Q.
  change (/ 2)%Q with (1 # 2)%Q. split; nra.
Qed.

Lemma length_points_plot h sw : ∀ samples i x,
  length (points (plot h sw samples i x)) = length samples.
Proof.
  induction samples as [|d samples IH]; intros i x; [done|].
  cbn [plot]. unfold points in *. cbn [omap list_omap].
  destruct i; cbn [length]; by rewrite IH.
Qed.

Lemma moves_plot h sw : ∀ samples i x, moves (plot h sw samples (S i) x) = [].
Proof.
  induction samples as [|d samples IH]; intros i x; [done|].
  cbn [plot]. unfold moves in *. cbn [omap list_omap]. apply IH.
Qed.

(** The loop invariant: [x] is [i] slices from the left edge. *)
Lemma plot_lookup h sw : ∀ samples i x j d,
  samples !! j = Some d →
  ∃ p, points (plot h sw samples i x) !! j = Some p
       ∧ (p.1 == x + inject_Z (Z.of_nat j) * sw)%Q
       ∧ p.2 = (number (Byte.to_N d) / 128 * h / 2)%Q.
Proof.
  induction samples as [|d0 samples IH]; intros i x j d Hj; [done|].
  cbn [plot]. destruct j as [|j].
  - injection Hj as ->. eexists. split.
    + unfold points. cbn [omap list_omap]. by destruct i.
    + split; [|done]. cbn [fst]. change (inject_Z (Z.of_nat 0)) with 0%Q.
      ring.
  - cbn in Hj. destruct (IH (S i) (x + sw)%Q j d Hj) as (p & Hp & Hx & Hy).
    exists p. split; [|split; [|done]].
    + unfold points in *. cbn [omap list_omap]. by destruct i.
    + rewrite Hx, inject_S. ring.
Qed.

Lemma plot_inside canvas sw n : ∀ samples i x,
  (0 <= sw)%Q →
  (inject_Z (Z.of_nat n) * sw <= number (width canvas))%Q →
  (x == inject_Z (Z.of_nat i) * sw)%Q →
  i + length samples ≤ n →
  Forall (inside canvas)
    (points (plot (number (height canvas)) sw samples i x)).
Proof.
  intros samples. induction samples as [|d samples IH]; intros i x Hsw Hn Hx Hi.
  - constructor.
  - cbn [plot].
    assert (Hp : inside canvas
                   (x, (number (Byte.to_N d) / 128
                        * number (height canvas) / 2)%Q)).
    { unfold inside. cbn [fst snd].
      destruct (sample_height d (number (height canvas))
                  (number_nonneg _)) as [Hy0 Hy1].
      assert (Hi0 : (0 <= inject_Z (Z.of_nat i))%Q).
      { change 0%Q with (inject_Z 0). rewrite <- Zle_Qle. lia. }
      assert (Hin : (inject_Z (Z.of_nat i) <= inject_Z (Z.of_nat n))%Q).
      { rewrite <- Zle_Qle. cbn [length] in Hi. lia. }
      rewrite Hx. repeat split; [nra|nra|done|done]. }
    assert (Hrest : Forall (inside canvas)
              (points (plot (number (height canvas)) sw samples (S i)
                         (x + sw)%Q))).
    { apply IH; [done|done| |cbn [length] in Hi; lia].
      rewrite Hx, inject_S. ring. }
    unfold points in *. cbn [omap list_omap].
    destruct i; by constructor.
Qed.

Lemma slice_width (w : N) :
  let sw := (number w * 1 / inject_Z (Z.of_nat frequencyBinCount))%Q in
  (0 <= sw)%Q
  ∧ (inject_Z (Z.of_nat frequencyBinCount) * sw == number w)%Q.
Proof.
  cbv zeta. pose proof (number_nonneg w) as Hw. revert Hw.
  generalize (number w). intros q Hq. unfold Qdiv.
  change (/ inject_Z (Z.of_nat frequencyBinCount))%Q with (1 # 1024)%Q.
  change (inject_Z (Z.of_nat frequencyBinCount)) with 1024%Q.
  split; [nra|ring].
Qed.

(** X12: whatever the analyser holds, every point that [drawWaveform] draws
    lies inside the canvas, and the path is a single sub-path: one [moveTo],
    for the first sample, one [lineTo] for each of the other bins and one to
    the middle of the right edge.  Without a canvas, an analyser or a 2D
    context nothing is drawn. *)
Theorem drawWaveform_stays_inside canvas analyser color :
  let calls := drawWaveform (Some canvas) (Some analyser) color in
  Forall (inside canvas) (points calls)
  ∧ length (points calls)
    = (if context2d canvas then S frequencyBinCount else 0)
  ∧ length (moves calls) = (if context2d canvas then 1 else 0)
  ∧ drawWaveform None (Some analyser) color = []
  ∧ drawWaveform (Some canvas) None color = [].
Proof.
  cbv zeta. unfold drawWaveform.
  destruct (context2d canvas); [|by repeat split; try constructor].
  destruct (slice_width (width canvas)) as [Hsw Hn]. cbv zeta in Hsw, Hn.
  revert Hsw Hn.
  generalize (number (width canvas) * 1
              / inject_Z (Z.of_nat frequencyBinCount))%Q.
  intros sw Hsw Hn.
  assert (Hlen : length (getByteTimeDomainData analyser frequencyBinCount)
                 = frequencyBinCount).
  { unfold getByteTimeDomainData. by rewrite length_fmap, length_seq. }
  revert Hlen. generalize (getByteTimeDomainData analyser frequencyBinCount).
  intros samples Hlen.
  assert (Hpos : 0 < frequencyBinCount) by (cbv; lia).
  revert Hn Hlen Hpos. generalize frequencyBinCount.
  intros n Hn Hlen Hpos.
  split; [|split; [|split; [|done]]].
  - unfold points. cbn [app omap list_omap]. fold (points).
    change (omap _ (plot ?h ?s ?d ?i ?x ++ ?l))
      with (points (plot h s d i x ++ l)).
    unfold points at 1. rewrite omap_app. apply Forall_app. split.
    + apply (plot_inside canvas sw n);
        [done|rewrite Hn; apply Qle_refl| |lia].
      change (inject_Z (Z.of_nat 0)) with 0%Q. ring.
    + cbn [omap list_omap]. constructor; [|constructor].
      pose proof (number_nonneg (width canvas)).
      pose proof (number_nonneg (height canvas)).
      unfold inside. cbn [fst snd]. unfold Qdiv.
      change (/ 2)%Q with (1 # 2)%Q. repeat split; lra.
  - unfold points. cbn [app omap list_omap]. rewrite omap_app, length_app.
    change (omap _ (plot ?h ?s ?d ?i ?x)) with (points (plot h s d i x)).
    rewrite length_points_plot. cbn. lia.
  - unfold moves. cbn [app omap list_omap]. rewrite omap_app, length_app.
    destruct samples as [|d samples]; [cbn in Hlen; lia|].
    cbn [plot omap list_omap].
    change (omap _ (plot ?h ?s ?d ?i ?x)) with (moves (plot h s d i x)).
    by rewrite moves_plot.
Qed.

(** X13: the samples are spread evenly over the width of the canvas: bin
    [i] is drawn at [x = i * width / 1024] and [y = sample * height / 256]
    (a sample of 128, silence, is drawn at mid-height), and the path ends at
    the middle of the right edge. *)
Theorem drawWaveform_points canvas analyser color i :
  context2d canvas = true → i < frequencyBinCount →
  let calls := drawWaveform (Some canvas) (Some analyser) color in
  (∃ p, points calls !! i = Some p
        ∧ (p.1 == inject_Z (Z.of_nat i) * number (width canvas) / 1024)%Q
        ∧ (p.2 == number (Byte.to_N (timeDomainData analyser i))
                  * number (height canvas) / 256)%Q)
  ∧ points calls !! frequencyBinCount
    = Some (number (width canvas), (number (height canvas) / 2)%Q).
Proof.
  intros Hc Hi. cbv zeta. unfold drawWaveform. rewrite Hc.
  assert (Hs : getByteTimeDomainData analyser frequencyBinCount !! i
               = Some (timeDomainData analyser i)).
  { unfold getByteTimeDomainData. rewrite list_lookup_fmap.
    by rewrite lookup_seq_lt. }
  assert (Hlen : length (getByteTimeDomainData analyser frequencyBinCount)
                 = frequencyBinCount).
  { unfold getByteTimeDomainData. by rewrite length_fmap, length_seq. }
  revert Hs Hlen. generalize (getByteTimeDomainData analyser frequencyBinCount).
  intros samples Hs Hlen.
  unfold points. cbn [app omap list_omap]. rewrite omap_app.
  change (omap _ (plot ?h ?s ?d ?i ?x)) with (points (plot h s d i x)).
  cbn [omap list_omap].
  set (sw := (number (width canvas) * 1
              / inject_Z (Z.of_nat frequencyBinCount))%Q).
  split.
  - destruct (plot_lookup (number (height canvas)) sw samples 0 0%Q i _ Hs)
      as (p & Hp & Hx & Hy).
    exists p. split; [by apply lookup_app_l_Some|]. split.
    + rewrite Hx. unfold sw, Qdiv.
      change (/ inject_Z (Z.of_nat frequencyBinCount))%Q with (1 # 1024)%Q.
      change (/ 1024)%Q with (1 # 1024)%Q. ring.
    + rewrite Hy. unfold Qdiv. change (/ 128)%Q with (1 # 128)%Q.
      change (/ 2)%Q with (1 # 2)%Q. change (/ 256)%Q with (1 # 256)%Q.
      ring.
  - rewrite lookup_app_r by (rewrite length_points_plot; lia).
    by rewrite length_points_plot, Hlen, Nat.sub_diag.
Qed.

End WaveformProperties.

(** ** The further properties on the sample runs *)

(** X1 on the open sample session: the close callback leaves the session
    as it is. *)
Lemma onclose_only_logs_witness :
  step sample_decode sample_blob (OnClose 0)
    (run sample_decode sample_blob opening initialState)
  = console_write "Session closed:"
      (run sample_decode sample_blob opening initialState).
Proof.
  pose proof (onclose_only_logs sample_decode sample_blob opening 0) as H.
  cbv zeta in H. apply H. eexists. lazy. reflexivity.
Defined.

(** X2 on a session that failed while connecting: the error callback tears
    it down, and the component stays in the connecting state through later
    events and clicks. *)
Lemma connecting_is_sticky_witness :
  let s := run sample_decode sample_blob
             [Click; GetUserMediaSettled true; OnError 0] initialState in
  let trace := [Click; OnClose 0; Render; Click] in
  isConnecting (ui (run sample_decode sample_blob trace s)) = true
  ∧ step sample_decode sample_blob Click
      (run sample_decode sample_blob trace s)
    = run sample_decode sample_blob trace s.
Proof.
  cbv zeta.
  apply (connecting_is_sticky sample_decode sample_blob
           [Click; OnClose 0; Render; Click]).
  - lazy. reflexivity.
  - by repeat constructor.
Defined.

(** X6 on the sample session stopped after one captured frame: the session
    was asked to close once, and a frame captured later is not sent. *)
Lemma no_send_after_close_witness :
  let s := run sample_decode sample_blob
             (opening ++ [AudioProcess 4 "first"; Click]) initialState in
  transmitted_on 0
    (step sample_decode sample_blob (AudioProcess 4 "late") s)
  = transmitted_on 0 s.
Proof.
  cbv zeta.
  assert (Hk : ∃ k,
    connections
      (platform (run sample_decode sample_blob
                   (opening ++ [AudioProcess 4 "first"; Click])
                   initialState)) !! 0 = Some k
    ∧ close_requests k = 1).
  { eexists. split; lazy; reflexivity. }
  destruct Hk as (k & Hk & Hc).
  pose proof (no_send_after_close sample_decode sample_blob
                (opening ++ [AudioProcess 4 "first"; Click]) 0 k) as H.
  cbv zeta in H. destruct (H Hk) as [_ H2]. apply H2. rewrite Hc. done.
Defined.

(** X7 on a session stopped before its promise resolved. *)
Lemma pending_session_closed_on_resolution_witness :
  ∃ k', connections
          (platform
             (step sample_decode sample_blob (SessionResolved 0)
                (stopConversation
                   (run sample_decode sample_blob
                      [Click; GetUserMediaSettled true] initialState)))) !! 0
        = Some k'
        ∧ promise k' = Fulfilled ∧ closeCalls k' = 1.
Proof.
  pose proof (pending_session_closed_on_resolution sample_decode sample_blob
                [Click; GetUserMediaSettled true] 0) as H.
  cbv zeta in H. destruct H as [_ H]; [lazy; reflexivity|]. exact H.
Defined.

(** X9 on the sample session with its first chunk playing: the chunk that
    arrives at frame 200 starts when the first one ends. *)
Lemma chunk_starts_after_active_sources_witness :
  let s := run sample_decode sample_blob
             (opening ++ [OnMessage 0 100 (audio_message "chunk500")])
             initialState in
  ∃ t, (startTime <$> bufferSources
          (platform (exec (onmessage sample_decode 200
                             (audio_message "chunk300")) s)))
         !! length (bufferSources (platform s)) = Some t
       ∧ (100 + 12000 ≤ t)%Z.
Proof.
  cbv zeta.
  pose proof (chunk_starts_after_active_sources sample_decode sample_blob
                (opening ++ [OnMessage 0 100 (audio_message "chunk500")])
                200 (audio_message "chunk300") "chunk300" 2 7200 0
                {| startTime := 100; bufferLength := 12000;
                   stopped := false |}) as H.
  cbv zeta in H. destruct H as [_ H].
  - lazy. reflexivity.
  - reflexivity.
  - apply elem_of_elements. lazy. left.
  - lazy. reflexivity.
  - exact H.
Defined.

(** X10 on the open sample session, whose first frame is pending. *)
Lemma stop_cancels_pending_frame_witness :
  step sample_decode sample_blob (AnimationFrame 1)
    (stopConversation open_session)
  = stopConversation open_session.
Proof.
  apply (stop_cancels_pending_frame sample_decode sample_blob open_session 1).
  lazy. reflexivity.
Defined.

(** X13 on a silent analyser and the canvas of the component: bin 3 is drawn
    at mid-height. *)
Lemma drawWaveform_points_witness :
  let calls := Waveform.drawWaveform (Some sample_canvas) (Some silence)
                 "#00F0FF" in
  (∃ p, Waveform.points calls !! 3 = Some p
        ∧ QArith_base.Qeq p.1
            (QArith_base.Qdiv
               (QArith_base.Qmult (QArith_base.inject_Z (Z.of_nat 3))
                  (Waveform.number (Waveform.width sample_canvas)))
               (QArith_base.inject_Z 1024))
        ∧ QArith_base.Qeq p.2
            (QArith_base.Qdiv
               (QArith_base.Qmult
                  (Waveform.number
                     (Byte.to_N (Waveform.timeDomainData silence 3)))
                  (Waveform.number (Waveform.height sample_canvas)))
               (QArith_base.inject_Z 256)))
  ∧ Waveform.points calls !! Waveform.frequencyBinCount
    = Some (Waveform.number (Waveform.width sample_canvas),
            QArith_base.Qdiv
              (Waveform.number (Waveform.height sample_canvas))
              (QArith_base.inject_Z 2)).
Proof.
  cbv zeta.
  apply (drawWaveform_points sample_canvas silence "#00F0FF" 3).
  - reflexivity.
  - unfold Waveform.frequencyBinCount, Waveform.fftSize. cbn. lia.
Defined.

(** X14 on the open sample session: the earlier teardown asks the session,
    which had not been asked before, to close once. *)
Lemma earlier_stop_idempotent_witness :
  ∃ k', connections (platform (Earlier.stopConversation open_session)) !! 0
        = Some k'
        ∧ close_requests k' = 1.
Proof.
  assert (Hk : ∃ k, connections (platform open_session) !! 0 = Some k
                    ∧ close_requests k = 0)
    by (eexists; split; lazy; reflexivity).
  destruct Hk as (k & Hk & H0).
  assert (Hc : sessionRef (ui open_session) = Some 0) by (lazy; reflexivity).
  destruct (earlier_stop_idempotent open_session)
    as (_ & _ & _ & _ & H & _).
  destruct (H 0 k Hc Hk) as (k' & Hk' & Hn & _).
  exists k'. split; [exact Hk'|]. by rewrite Hn, H0.
Defined.

(** X15 and X16 on the initial state, whose accumulators are empty: the
    earlier revision logs an empty record, also when the message then makes
    the handler reject. *)
Lemma earlier_turn_always_logged_witness :
  let s' := exec (Earlier.onmessage sample_decode 0 bare_turn_complete)
              initialState in
  transcription (ui s')
  = transcription (ui initialState) ++ [currentTurnRef (ui initialState)]
  ∧ currentTurn (ui s') = emptyTurn.
Proof.
  cbv zeta.
  apply (earlier_turn_always_logged sample_decode 0 bare_turn_complete
           initialState).
  reflexivity.
Defined.

Lemma earlier_part_without_inlineData_rejects_witness :
  completed (Earlier.onmessage sample_decode 0 text_part_message)
    initialState = false
  ∧ transcription
      (ui (exec (Earlier.onmessage sample_decode 0 text_part_message)
             initialState))
    = [emptyTurn].
Proof.
  pose proof (earlier_part_without_inlineData_rejects sample_decode 0
                text_part_message initialState eq_refl) as H.
  cbv zeta in H. destruct H as (H1 & H2 & _).
  split; [exact H1|]. rewrite H2. reflexivity.
Defined.

End LiveConversation.
